(** * dartdomgenerator: the driver that creates Dart APIs from the IDL database

    A shallow embedding of [lib/dom/scripts/dartdomgenerator.py].

    The script is pure orchestration: it constructs collaborator objects
    (database, generator, template loaders, generator options, backend
    systems), calls their methods in a fixed order and finally flushes a
    shared emitter.  The collaborators themselves live in other modules, so
    the embedding keeps them abstract:

    - every constructor call, method call and attribute assignment the
      driver makes is an [Event], appended to a chronological [trace];
    - whether a collaborator call raises is decided by an arbitrary oracle
      that sees the whole history, so every theorem holds for every
      behaviour of the collaborators;
    - Python object identity is modelled by a heap of cells; a reference is
      an index into the heap and a constructor call allocates the next one. *)

From Stdlib Require Import Arith Lia Ascii String.
From stdpp Require Import base strings list gmap.

Open Scope string_scope.
Open Scope list_scope.

(** ** Python values the driver manipulates *)

(** A reference to a Python object (index of its cell in the heap). *)
Abbreviation ref := nat.

(** How an object came to be: the class that was instantiated together with
    the arguments of the constructor call ([Database_Clone] is the result of
    [common_database.Clone()]).  An absent optional argument and an explicit
    [None] are both [None]. *)
Inductive Obj : Type :=
| DartGenerator
| Database (database_dir : string)
| Database_Clone (source : ref)
| MultiEmitter
| HtmlRenamer (database : ref)
| TypeRegistry (database : ref) (renamer : option ref)
| TemplateLoader (root : string) (subpaths : list string)
                 (conditions : gmap string bool)
| GeneratorOptions (templates database emitters type_registry : ref)
                   (renamer : option ref) (output_dir : string)
| HtmlFrogSystem (options : ref)
| NativeImplementationSystem (options : ref) (auxiliary_dir : string)
| HtmlInterfacesSystem (options backend : ref)
| InterfacesSystem (options : ref)
| DummyImplementationSystem (options : ref)
| FrogSystem (options : ref).

(** Everything the driver does to the outside world. *)
Inductive Event : Type :=
| New (r : ref) (o : Obj)
| SetAttr (target : ref) (attr : string) (value : ref)
| LoadAuxiliary (generator : ref) (auxiliary_dir : string)
| LoadFromCache (database : ref)
| Load (database : ref)
| FilterMembersWithUnidentifiedTypes (generator database : ref)
| FilterInterfaces (generator database : ref)
                   (or_annotations exclude_displaced exclude_suppressed :
                      list string)
| RenameTypes (generator database : ref) (renames : gmap string string)
              (strict : bool)
| FixEventTargets (generator database : ref)
| GeneratorGenerate (generator database system super_database : ref)
                    (webkit_renames : gmap string string)
| LoggerInfo (msg : string)
| Flush (emitters : ref)
| FileConfig (path : string)
| SubprocessCall (args : list string) (shell : bool).

(** A heap cell: the constructor call that made the object and the
    attributes assigned to it from outside afterwards. *)
Record Cell : Type := mkCell { made : Obj; attrs : gmap string ref }.

Record World : Type := mkWorld { trace : list Event; heap : list Cell }.

(** The two kinds of exception a run can end with: the [Exception] the
    driver raises itself, and whatever a collaborator call raised. *)
Inductive Exn : Type :=
| Exception (msg : string)
| CollaboratorError (call : Event) (detail : string).

Inductive Result (A : Type) : Type :=
| Ok (a : A)
| Raise (e : Exn).
Arguments Ok {A} a.
Arguments Raise {A} e.

(** State and exception monad of the interpreter. *)
Definition M (A : Type) : Type := World -> Result A * World.

Definition ret {A} (a : A) : M A := fun w => (Ok a, w).

Definition bind {A B} (m : M A) (k : A -> M B) : M B :=
  fun w => match m w with
           | (Ok a, w') => k a w'
           | (Raise e, w') => (Raise e, w')
           end.

Definition throw {A} (e : Exn) : M A := fun w => (Raise e, w).

Declare Scope py_scope.
Delimit Scope py_scope with py.
Notation "x <- m ;; k" := (bind m (fun x => k))
  (at level 100, m at next level, right associativity) : py_scope.
Notation "m ;; k" := (bind m (fun _ => k))
  (at level 100, right associativity) : py_scope.
Open Scope py_scope.

(** [for x in l: body(x)] *)
Fixpoint for_each {A} (body : A -> M unit) (l : list A) : M unit :=
  match l with
  | [] => ret tt
  | x :: l' => body x ;; for_each body l'
  end.

(** ** Python library functions used by the driver *)

Definition starts_with_slash (s : string) : bool :=
  match s with
  | String c _ => Ascii.eqb c "/"%char
  | EmptyString => false
  end.

Fixpoint ends_with_slash (s : string) : bool :=
  match s with
  | EmptyString => false
  | String c EmptyString => Ascii.eqb c "/"%char
  | String _ s' => ends_with_slash s'
  end.

(** One round of [posixpath.join]: an absolute component replaces what came
    before, otherwise it is appended after a separator (none when the path
    so far is empty or already ends with one). *)
Definition join2 (path b : string) : string :=
  if starts_with_slash b then b
  else if String.eqb path "" || ends_with_slash path then path +:+ b
  else path +:+ "/" +:+ b.

(** [os.path.join(a, *p)] *)
Definition path_join (a : string) (p : list string) : string :=
  fold_left join2 p a.

(** [s.split(',')] *)
Fixpoint split_comma (s : string) : list string :=
  match s with
  | EmptyString => [""]
  | String c s' =>
      if Ascii.eqb c ","%char
      then "" :: split_comma s'
      else match split_comma s' with
           | x :: r => String c x :: r
           | [] => [String c ""]
           end
  end.

(** [x in l] for a list of strings *)
Definition str_in (x : string) (l : list string) : bool :=
  existsb (String.eqb x) l.

(** [a or b] where [a] is a string or [None]: [None] and the empty string
    are falsy. *)
Definition py_or (a : option string) (b : string) : string :=
  match a with
  | Some (String c s) => String c s
  | Some EmptyString => b
  | None => b
  end.

(** ** Module globals *)

(** W3C -> WebKit name conversion *)
Definition _webkit_renames : gmap string string :=
  {[ "ApplicationCache" := "DOMApplicationCache";
     "BarProp" := "BarInfo";
     "DedicatedWorkerGlobalScope" := "DedicatedWorkerContext";
     "FormData" := "DOMFormData";
     "Selection" := "DOMSelection";
     "SharedWorkerGlobalScope" := "SharedWorkerContext";
     "Window" := "DOMWindow";
     "WorkerGlobalScope" := "WorkerContext" ]}.

(** ** The interpreter's primitives *)

(** What an event that did not raise does to the heap: a constructor call
    allocates the next cell, an attribute assignment updates the target. *)
Definition effect (ev : Event) (h : list Cell) : list Cell :=
  match ev with
  | New _ o => h ++ [mkCell o ∅]
  | SetAttr r a v =>
      match h !! r with
      | Some c => <[r := mkCell (made c) (<[a := v]> (attrs c))]> h
      | None => h
      end
  | _ => h
  end.

(** The collaborators: given the history and the call being made, either
    the call raises (with some detail) or it returns. *)
Definition Collaborators : Type := list Event -> Event -> option string.

(** The collaborators that never raise. *)
Definition quiet : Collaborators := fun _ _ => None.

Section Driver.

Variable raises : Collaborators.

(** Make one call; it is recorded in the trace whether or not it raises. *)
Definition perform (ev : Event) : M unit :=
  fun w =>
    match raises (trace w) ev with
    | Some detail =>
        (Raise (CollaboratorError ev detail),
         mkWorld (trace w ++ [ev]) (heap w))
    | None => (Ok tt, mkWorld (trace w ++ [ev]) (effect ev (heap w)))
    end.

(** A constructor call (or any call returning a fresh object). *)
Definition new (o : Obj) : M ref :=
  fun w => (perform (New (length (heap w)) o) ;; ret (length (heap w))) w.

(** ** [Generate] *)

Section Generate.

(** [os.path.dirname(__file__)] *)
Variable current_dir : string.

Section Closures.

(** The locals of [Generate] its two closures and its loop use. *)
Variables (auxiliary_dir template_dir : string).
Variables (generator common_database webkit_database emitters : ref).
Variables (dom_output_dir html_output_dir : string).

Definition CreateGeneratorOptions
    (template_paths : list string) (conditions : gmap string bool)
    (type_registry : ref) (output_dir : string)
    (renamer : option ref) : M ref :=
  template_loader <-
    new (TemplateLoader template_dir template_paths conditions) ;;
  new (GeneratorOptions template_loader webkit_database emitters
         type_registry renamer output_dir).

(** The inner [def Generate(system)]. *)
Definition Generate' (system : ref) : M unit :=
  perform (GeneratorGenerate generator webkit_database system
             common_database _webkit_renames).

(** The body of [for system_name in system_names]. *)
Definition dispatch (system_name : string) : M unit :=
  if str_in system_name ["htmlfrog"; "htmldartium"] then
    renamer <- new (HtmlRenamer webkit_database) ;;
    type_registry <-
      new (TypeRegistry webkit_database (Some renamer)) ;;
    backend <-
      (if String.eqb system_name "htmlfrog" then
         options <- CreateGeneratorOptions
                      ["html/frog"; "html/impl"; "html"; ""]
                      {[ "DARTIUM" := false; "FROG" := true ]}
                      type_registry html_output_dir (Some renamer) ;;
         new (HtmlFrogSystem options)
       else
         options <- CreateGeneratorOptions
                      ["dom/native"; "html/dartium"; "html/impl"; ""]
                      {[ "DARTIUM" := true; "FROG" := false ]}
                      type_registry html_output_dir (Some renamer) ;;
         new (NativeImplementationSystem options auxiliary_dir)) ;;
    options <- CreateGeneratorOptions
                 ["html/interface"; "html/impl"; "html"; ""] ∅
                 type_registry html_output_dir (Some renamer) ;;
    html_system <- new (HtmlInterfacesSystem options backend) ;;
    Generate' html_system
  else
    type_registry <- new (TypeRegistry webkit_database None) ;;
    options <- CreateGeneratorOptions
                 ["dom/interface"; "dom"; ""] ∅
                 type_registry dom_output_dir None ;;
    interface_system <- new (InterfacesSystem options) ;;
    implementation_system <-
      (if String.eqb system_name "dummy" then
         options <- CreateGeneratorOptions
                      ["dom/dummy"; "dom"; ""] ∅
                      type_registry dom_output_dir None ;;
         new (DummyImplementationSystem options)
       else if String.eqb system_name "frog" then
         options <- CreateGeneratorOptions
                      ["dom/frog"; "dom"; ""] ∅
                      type_registry dom_output_dir None ;;
         new (FrogSystem options)
       else
         throw (Exception ("Unsupported system_name " +:+ system_name))) ;;
    (* Makes interface files available for listing in the library for
       the implementation system. *)
    perform (SetAttr implementation_system "_interface_system"
               interface_system) ;;
    Generate' interface_system ;;
    Generate' implementation_system.

End Closures.

Definition Generate (system_names : list string) (database_dir : string)
    (use_database_cache : bool) (dom_output_dir html_output_dir : string)
    : M unit :=
  let auxiliary_dir := path_join current_dir [".."; "src"] in
  let template_dir := path_join current_dir [".."; "templates"] in
  generator <- new DartGenerator ;;
  perform (LoadAuxiliary generator auxiliary_dir) ;;
  common_database <- new (Database database_dir) ;;
  (if use_database_cache
   then perform (LoadFromCache common_database)
   else perform (Load common_database)) ;;
  perform (FilterMembersWithUnidentifiedTypes generator common_database) ;;
  webkit_database <- new (Database_Clone common_database) ;;
  (* Generate Dart interfaces for the WebKit DOM. *)
  perform (FilterInterfaces generator webkit_database
             ["WebKit"; "Dart"] ["WebKit"] ["WebKit"; "Dart"]) ;;
  perform (RenameTypes generator webkit_database _webkit_renames true) ;;
  perform (FixEventTargets generator webkit_database) ;;
  emitters <- new MultiEmitter ;;
  for_each (dispatch auxiliary_dir template_dir generator common_database
              webkit_database emitters dom_output_dir html_output_dir)
           system_names ;;
  perform (LoggerInfo "Flush...") ;;
  perform (Flush emitters).

(** ** [GenerateSingleFile] and [main] *)

Definition GenerateSingleFile (systems : list string) : M unit :=
  (if str_in "frog" systems then
     perform (LoggerInfo "Copy dom_frog to frog/") ;;
     perform (SubprocessCall
                ["cd ../generated ; ../../../tools/copy_dart.py ../frog dom_frog.dart"]
                true)
   else ret tt) ;;
  (if str_in "htmlfrog" systems then
     perform (LoggerInfo "Copy html_frog to ../html/frog/") ;;
     perform (SubprocessCall
                ["cd ../../html/generated ; ../../../tools/copy_dart.py ../frog html_frog.dart"]
                true)
   else ret tt) ;;
  (if str_in "htmldartium" systems then
     perform (LoggerInfo "Copy html_dartium to ../html/dartium/") ;;
     perform (SubprocessCall
                ["cd ../../html/generated ; ../../../tools/copy_dart.py ../dartium html_dartium.dart"]
                true)
   else ret tt) ;;
  (* Copy dummy DOM where dartc build expects it. *)
  (if str_in "dummy" systems then
     perform (LoggerInfo "Copy dom_dummy to dom.dart") ;;
     perform (SubprocessCall
                ["cd ../generated ; ../../../tools/copy_dart.py dummy dom_dummy.dart ;cp dummy/dom_dummy.dart ../dom.dart"]
                true)
   else ret tt).

(** The values [parser.parse_args()] hands back: [--systems] (default
    ["frog,dummy,htmlfrog,htmldartium"]), [--output-dir] (default
    [None]) and [--use-database-cache] (default [False]). *)
Record Options : Type := mkOptions {
  systems : string;
  output_dir : option string;
  use_database_cache : bool
}.

Definition default_options : Options :=
  mkOptions "frog,dummy,htmlfrog,htmldartium" None false.

(** The two output directories [main] computes. *)
Definition dom_output_dir (options : Options) : string :=
  py_or (output_dir options) (path_join current_dir ["../generated"]).

Definition html_output_dir (options : Options) : string :=
  py_or (output_dir options)
        (path_join current_dir ["../../html/generated"]).

Definition main (options : Options) : M unit :=
  let database_dir := path_join current_dir [".."; "database"] in
  perform (FileConfig (path_join current_dir ["logging.conf"])) ;;
  let systems := split_comma (systems options) in
  Generate systems database_dir (use_database_cache options)
           (dom_output_dir options) (html_output_dir options) ;;
  GenerateSingleFile systems.

End Generate.

End Driver.

(** The interpreter's world before anything has happened. *)
Definition world0 : World := mkWorld [] [].

(** ** The calls a run attempts

    The driver has no exception handler and, apart from the references the
    constructors hand back, never looks at what a collaborator returns.  So
    the calls a run attempts are known in advance: a [Plan] lists them, with
    the exception the driver raises itself at the end, if any.  Each plan
    below is proved equal to the run of the code it describes
    ([dispatch_planned], [Generate_planned]), for every collaborator
    behaviour; the theorems about runs are then read off the plans. *)

Definition Plan : Type := list Event * option Exn.

(** How a planned run ends when no call raises. *)
Definition finish (fin : option Exn) : Result unit :=
  match fin with
  | None => Ok tt
  | Some e => Raise e
  end.

(** Number of allocations in a list of calls. *)
Fixpoint allocs (evs : list Event) : nat :=
  match evs with
  | [] => 0
  | New _ _ :: evs' => S (allocs evs')
  | _ :: evs' => allocs evs'
  end.

(** [p1] and then, unless [p1] ends in an exception, the plan [p2] of what
    follows, which starts allocating where [p1] stopped. *)
Definition then_plan (p1 : Plan) (p2 : nat -> Plan) (n : nat) : Plan :=
  match snd p1 with
  | Some e => p1
  | None => (fst p1 ++ fst (p2 (allocs (fst p1) + n)),
             snd (p2 (allocs (fst p1) + n)))
  end.

Section Plans.

Variables (auxiliary_dir template_dir : string).
Variables (generator common_database webkit_database emitters : ref).
Variables (dom_output_dir html_output_dir : string).

Definition CreateGeneratorOptions_plan
    (template_paths : list string) (conditions : gmap string bool)
    (type_registry : ref) (output_dir : string) (renamer : option ref)
    (n : nat) : list Event :=
  [ New n (TemplateLoader template_dir template_paths conditions);
    New (1 + n) (GeneratorOptions n webkit_database emitters type_registry
                   renamer output_dir) ].

Definition Generate'_plan (system : ref) : Event :=
  GeneratorGenerate generator webkit_database system common_database
    _webkit_renames.

Definition html_plan (system_name : string) (n : nat) : Plan :=
  ([ New n (HtmlRenamer webkit_database);
     New (1 + n) (TypeRegistry webkit_database (Some n)) ]
   ++ (if String.eqb system_name "htmlfrog" then
         CreateGeneratorOptions_plan
           ["html/frog"; "html/impl"; "html"; ""]
           {[ "DARTIUM" := false; "FROG" := true ]}
           (1 + n) html_output_dir (Some n) (2 + n)
         ++ [ New (4 + n) (HtmlFrogSystem (3 + n)) ]
       else
         CreateGeneratorOptions_plan
           ["dom/native"; "html/dartium"; "html/impl"; ""]
           {[ "DARTIUM" := true; "FROG" := false ]}
           (1 + n) html_output_dir (Some n) (2 + n)
         ++ [ New (4 + n) (NativeImplementationSystem (3 + n)
                             auxiliary_dir) ])
   ++ CreateGeneratorOptions_plan
        ["html/interface"; "html/impl"; "html"; ""] ∅
        (1 + n) html_output_dir (Some n) (5 + n)
   ++ [ New (7 + n) (HtmlInterfacesSystem (6 + n) (4 + n));
        Generate'_plan (7 + n) ],
   None).

(** What every identifier that is not html-style starts with. *)
Definition interface_plan (n : nat) : list Event :=
  New n (TypeRegistry webkit_database None)
  :: CreateGeneratorOptions_plan ["dom/interface"; "dom"; ""] ∅
       n dom_output_dir None (1 + n)
  ++ [ New (3 + n) (InterfacesSystem (2 + n)) ].

Definition plain_plan (system_name : string) (n : nat) : Plan :=
  if String.eqb system_name "dummy" then
    (interface_plan n
     ++ CreateGeneratorOptions_plan ["dom/dummy"; "dom"; ""] ∅
          n dom_output_dir None (4 + n)
     ++ [ New (6 + n) (DummyImplementationSystem (5 + n));
          SetAttr (6 + n) "_interface_system" (3 + n);
          Generate'_plan (3 + n);
          Generate'_plan (6 + n) ],
     None)
  else if String.eqb system_name "frog" then
    (interface_plan n
     ++ CreateGeneratorOptions_plan ["dom/frog"; "dom"; ""] ∅
          n dom_output_dir None (4 + n)
     ++ [ New (6 + n) (FrogSystem (5 + n));
          SetAttr (6 + n) "_interface_system" (3 + n);
          Generate'_plan (3 + n);
          Generate'_plan (6 + n) ],
     None)
  else
    (interface_plan n,
     Some (Exception ("Unsupported system_name " +:+ system_name))).

Definition dispatch_plan (system_name : string) (n : nat) : Plan :=
  if str_in system_name ["htmlfrog"; "htmldartium"]
  then html_plan system_name n
  else plain_plan system_name n.

Fixpoint loop_plan (system_names : list string) (n : nat) : Plan :=
  match system_names with
  | [] => ([], None)
  | x :: l => then_plan (dispatch_plan x n) (loop_plan l) n
  end.

End Plans.

(** The calls of [Generate] up to and including [FixEventTargets], for a
    heap that holds [n] objects at the start. *)
Definition stages_plan (current_dir database_dir : string)
    (use_database_cache : bool) (n : nat) : list Event :=
  [ New n DartGenerator;
    LoadAuxiliary n (path_join current_dir [".."; "src"]);
    New (1 + n) (Database database_dir);
    (if use_database_cache then LoadFromCache (1 + n) else Load (1 + n));
    FilterMembersWithUnidentifiedTypes n (1 + n);
    New (2 + n) (Database_Clone (1 + n));
    FilterInterfaces n (2 + n) ["WebKit"; "Dart"] ["WebKit"]
      ["WebKit"; "Dart"];
    RenameTypes n (2 + n) _webkit_renames true;
    FixEventTargets n (2 + n) ].

(** The calls of the backend loop of [Generate]. *)
Definition backends_plan (current_dir : string)
    (system_names : list string) (dom_output_dir html_output_dir : string)
    (n : nat) : Plan :=
  loop_plan (path_join current_dir [".."; "src"])
    (path_join current_dir [".."; "templates"])
    n (1 + n) (2 + n) (3 + n) dom_output_dir html_output_dir
    system_names (4 + n).

Definition Generate_plan (current_dir : string)
    (system_names : list string) (database_dir : string)
    (use_database_cache : bool) (dom_output_dir html_output_dir : string)
    (n : nat) : Plan :=
  let backends :=
    backends_plan current_dir system_names dom_output_dir html_output_dir n
  in
  (stages_plan current_dir database_dir use_database_cache n
   ++ New (3 + n) MultiEmitter
   :: fst backends
   ++ match snd backends with
      | None => [ LoggerInfo "Flush..."; Flush (3 + n) ]
      | Some _ => []
      end,
   snd backends).

(** ** Running a plan *)

Section Exec.

Variable raises : Collaborators.

Fixpoint exec_events (evs : list Event) : M unit :=
  match evs with
  | [] => ret tt
  | ev :: evs' => perform raises ev ;; exec_events evs'
  end.

Definition exec (p : Plan) : M unit :=
  exec_events (fst p) ;;
  match snd p with
  | None => ret tt
  | Some e => throw e
  end.

(** [Outcome h evs fin d r]: when the history is [h], running the plan
    [(evs, fin)] makes exactly the calls [d] and ends with [r]. *)
Inductive Outcome (h : list Event) :
    list Event -> option Exn -> list Event -> Result unit -> Prop :=
| Outcome_end fin : Outcome h [] fin [] (finish fin)
| Outcome_raise ev evs fin detail :
    raises h ev = Some detail ->
    Outcome h (ev :: evs) fin [ev] (Raise (CollaboratorError ev detail))
| Outcome_step ev evs fin d r :
    raises h ev = None ->
    Outcome (h ++ [ev]) evs fin d r ->
    Outcome h (ev :: evs) fin (ev :: d) r.

(** A run follows its plan: [planned m p] when, from a heap of [n]
    objects, [m] does what the plan [p n] says. *)
Definition planned (m : M unit) (p : nat -> Plan) : Prop :=
  forall w, m w = exec (p (length (heap w))) w.

End Exec.

(** ** Kinds of calls *)

(** The five pipeline stages that precede backend dispatch: load, prune,
    clone, filter, rename and the event-target fix that goes with it. *)
Definition is_stage (ev : Event) : bool :=
  match ev with
  | LoadFromCache _ | Load _ => true
  | FilterMembersWithUnidentifiedTypes _ _ => true
  | New _ (Database_Clone _) => true
  | FilterInterfaces _ _ _ _ _ => true
  | RenameTypes _ _ _ _ => true
  | FixEventTargets _ _ => true
  | _ => false
  end.

(** Calls that resolve, configure or run a backend. *)
Definition is_backend_call (ev : Event) : bool :=
  match ev with
  | New _ (HtmlRenamer _) | New _ (TypeRegistry _ _) => true
  | New _ (TemplateLoader _ _ _) | New _ (GeneratorOptions _ _ _ _ _ _) => true
  | New _ (HtmlFrogSystem _) | New _ (NativeImplementationSystem _ _) => true
  | New _ (HtmlInterfacesSystem _ _) | New _ (InterfacesSystem _) => true
  | New _ (DummyImplementationSystem _) | New _ (FrogSystem _) => true
  | SetAttr _ _ _ => true
  | GeneratorGenerate _ _ _ _ _ => true
  | _ => false
  end.

Definition is_flush (ev : Event) : bool :=
  match ev with
  | Flush _ => true
  | _ => false
  end.

Definition is_generate (ev : Event) : bool :=
  match ev with
  | GeneratorGenerate _ _ _ _ _ => true
  | _ => false
  end.

Definition is_registry (ev : Event) : bool :=
  match ev with
  | New _ (TypeRegistry _ _) => true
  | _ => false
  end.

(** The identifiers the backend loop knows. *)
Definition supported (system_name : string) : bool :=
  str_in system_name ["htmlfrog"; "htmldartium"; "dummy"; "frog"].

(** ** Sample worlds and collaborators *)

(** A world whose heap holds the generator (0), the base database (1), its
    working clone (2) and the emitter (3), as when the backend loop starts. *)
Definition loop_world : World :=
  mkWorld [] [ mkCell DartGenerator ∅; mkCell (Database "db") ∅;
               mkCell (Database_Clone 1) ∅; mkCell MultiEmitter ∅ ].

(** Collaborators whose generator runs fail and whose other calls succeed. *)
Definition failing_generator : Collaborators :=
  fun _ ev => if is_generate ev then Some "GenerationError" else None.

(** ** The buffered writer *)

(** Modelled from the spec: the buffered, multi-destination writer
    ([multiemitter.MultiEmitter]) is not among the sources.  Per the spec,
    what a generator run emits stays pending in the writer, and pending
    output is written only when the writer is flushed.  The state is the
    pair of the systems with pending output and the systems whose output has
    been written. *)
Definition emitter_step (st : list ref * list ref) (ev : Event)
    : list ref * list ref :=
  match ev with
  | GeneratorGenerate _ _ system _ _ => (fst st ++ [system], snd st)
  | Flush _ => ([], snd st ++ fst st)
  | _ => st
  end.

(** The systems whose output has been written after the calls [d]. *)
Definition written (d : list Event) : list ref :=
  snd (fold_left emitter_step d ([], [])).

(** The systems handed to [generator.Generate], in order. *)
Fixpoint generated (d : list Event) : list ref :=
  match d with
  | [] => []
  | GeneratorGenerate _ _ system _ _ :: d' => system :: generated d'
  | _ :: d' => generated d'
  end.

(** ** Reading the heap *)

(** The constructor call that made the object at [r]. *)
Definition made_at (h : list Cell) (r : ref) : option Obj :=
  made <$> h !! r.

(** The template-path lookup order of the configuration [options]: the
    ordered sub-path list held by its template loader. *)
Definition lookup_order (h : list Cell) (options : ref)
    : option (list string) :=
  match made_at h options with
  | Some (GeneratorOptions tl _ _ _ _ _) =>
      match made_at h tl with
      | Some (TemplateLoader _ paths _) => Some paths
      | _ => None
      end
  | _ => None
  end.

(** The heap after further calls that did not raise. *)
Definition later (evs : list Event) (h : list Cell) : list Cell :=
  fold_left (fun h ev => effect ev h) evs h.

(** ** The calls of a run before the terminal flush *)

(** The calls of [Generate] before the terminal flush. *)
Definition body_plan (current_dir : string) (system_names : list string)
    (database_dir : string) (use_database_cache : bool)
    (dom_output_dir html_output_dir : string) (n : nat) : list Event :=
  stages_plan current_dir database_dir use_database_cache n
  ++ New (3 + n) MultiEmitter
  :: fst (backends_plan current_dir system_names dom_output_dir
            html_output_dir n).

(** ** Properties of every call of a run *)

(** [always J h d]: every call of [d], made after the history [h] and the
    calls of [d] before it, satisfies [J]. *)
Definition always (J : list Event -> Event -> Prop) (h d : list Event)
    : Prop :=
  forall pre ev post, d = pre ++ ev :: post -> J (h ++ pre) ev.

(** The only attribute assignment of the driver: it targets the plain
    implementation system constructed by the call just before. *)
Definition assigns_fresh_implementation (h : list Event) (ev : Event)
    : Prop :=
  match ev with
  | SetAttr t a v =>
      a = "_interface_system"
      /\ exists pre o,
           h = pre ++ [New t (DummyImplementationSystem o)]
           \/ h = pre ++ [New t (FrogSystem o)]
  | _ => True
  end.

Definition frog_conditions : gmap string bool :=
  {[ "DARTIUM" := false; "FROG" := true ]}.

Definition dartium_conditions : gmap string bool :=
  {[ "DARTIUM" := true; "FROG" := false ]}.

(** [composed_with conditions options h]: the last two calls of [h] are the
    two constructor calls of [CreateGeneratorOptions], making a template
    loader with [conditions] and the generator options [options] from it. *)
Definition composed_with (conditions : gmap string bool) (options : ref)
    (h : list Event) : Prop :=
  exists pre tl root paths db em tr ren out,
    h = pre ++ [ New tl (TemplateLoader root paths conditions);
                 New options (GeneratorOptions tl db em tr ren out) ].

(** What the construction of a generator for the identifier [system_name]
    must look like. *)
Definition conditions_by_identifier (system_name : string)
    (h : list Event) (ev : Event) : Prop :=
  match ev with
  | New _ (HtmlFrogSystem options) =>
      system_name = "htmlfrog" /\ composed_with frog_conditions options h
  | New _ (NativeImplementationSystem options _) =>
      system_name = "htmldartium"
      /\ composed_with dartium_conditions options h
  | New _ (HtmlInterfacesSystem options _)
  | New _ (InterfacesSystem options)
  | New _ (DummyImplementationSystem options)
  | New _ (FrogSystem options) => composed_with ∅ options h
  | _ => True
  end.

(** The same without the identifier. *)
Definition conditions_by_system (h : list Event) (ev : Event) : Prop :=
  match ev with
  | New _ (HtmlFrogSystem options) => composed_with frog_conditions options h
  | New _ (NativeImplementationSystem options _) =>
      composed_with dartium_conditions options h
  | New _ (HtmlInterfacesSystem options _)
  | New _ (InterfacesSystem options)
  | New _ (DummyImplementationSystem options)
  | New _ (FrogSystem options) => composed_with ∅ options h
  | _ => True
  end.

(** [since_registry tr h]: the type registry [tr] was constructed in [h],
    and since then no other type registry has been constructed and no
    generator has run. *)
Definition since_registry (tr : ref) (h : list Event) : Prop :=
  exists pre db ren since,
    h = pre ++ New tr (TypeRegistry db ren) :: since
    /\ Forall (fun ev => is_registry ev = false /\ is_generate ev = false)
         since.

Definition uses_current_registry (h : list Event) (ev : Event) : Prop :=
  match ev with
  | New _ (GeneratorOptions _ _ _ tr _ _) => since_registry tr h
  | _ => True
  end.

(** [numbered n evs]: the constructor calls of [evs] allocate the
    references [n], [n + 1], ... in order, as they do when the heap holds
    [n] objects at the start. *)
Fixpoint numbered (n : nat) (evs : list Event) : Prop :=
  match evs with
  | [] => True
  | New r _ :: evs' => r = n /\ numbered (S n) evs'
  | _ :: evs' => numbered n evs'
  end.

(** ** The calls of [GenerateSingleFile] and [main] *)

Definition is_copy (ev : Event) : bool :=
  match ev with
  | SubprocessCall _ _ => true
  | _ => false
  end.

(** One [if name in systems:] block of [GenerateSingleFile]. *)
Definition copy_plan (systems : list string) (system_name log command : string)
    : list Event :=
  if str_in system_name systems
  then [LoggerInfo log; SubprocessCall [command] true]
  else [].

Definition GenerateSingleFile_plan (systems : list string) : list Event :=
  copy_plan systems "frog" "Copy dom_frog to frog/"
    "cd ../generated ; ../../../tools/copy_dart.py ../frog dom_frog.dart"
  ++ copy_plan systems "htmlfrog" "Copy html_frog to ../html/frog/"
       "cd ../../html/generated ; ../../../tools/copy_dart.py ../frog html_frog.dart"
  ++ copy_plan systems "htmldartium" "Copy html_dartium to ../html/dartium/"
       "cd ../../html/generated ; ../../../tools/copy_dart.py ../dartium html_dartium.dart"
  ++ copy_plan systems "dummy" "Copy dom_dummy to dom.dart"
       "cd ../generated ; ../../../tools/copy_dart.py dummy dom_dummy.dart ;cp dummy/dom_dummy.dart ../dom.dart".

(** The calls of [main]: the logging configuration, the calls of [Generate]
    and, when [Generate] is planned to return, the copies. *)
Definition main_plan (current_dir : string) (options : Options) (n : nat)
    : Plan :=
  let generate :=
    Generate_plan current_dir (split_comma (systems options))
      (path_join current_dir [".."; "database"])
      (use_database_cache options)
      (dom_output_dir current_dir options)
      (html_output_dir current_dir options) n in
  (FileConfig (path_join current_dir ["logging.conf"])
   :: fst generate
   ++ match snd generate with
      | None => GenerateSingleFile_plan (split_comma (systems options))
      | Some _ => []
      end,
   snd generate).

(** ** What every backend of a run is bound to *)

(** [bound_to template_dir n ev]: the call [ev] uses the collaborators that
    [Generate] set up when the heap held [n] objects: the generator [n], the
    base database [1 + n], its working clone [2 + n], the emitter [3 + n],
    the template root [template_dir] and the rename table. *)
Definition bound_to (template_dir : string) (n : nat) (ev : Event) : Prop :=
  match ev with
  | New _ (HtmlRenamer db) => db = 2 + n
  | New _ (TypeRegistry db _) => db = 2 + n
  | New _ (TemplateLoader root _ _) => root = template_dir
  | New _ (GeneratorOptions _ db em _ _ _) => db = 2 + n /\ em = 3 + n
  | GeneratorGenerate g db _ super renames =>
      g = n /\ db = 2 + n /\ super = 1 + n /\ renames = _webkit_renames
  | Flush em => em = 3 + n
  | _ => True
  end.

(** The template search chain of every template loader ends with the
    template root itself. *)
Definition chain_ends_at_root (ev : Event) : Prop :=
  match ev with
  | New _ (TemplateLoader _ paths _) => last paths = Some ""
  | _ => True
  end.

(** [composed_into out with_renamer options h]: the last two calls of [h]
    are the constructor calls of [CreateGeneratorOptions] making [options],
    with output directory [out] and with a renamer or without one. *)
Definition composed_into (out : string) (with_renamer : bool) (options : ref)
    (h : list Event) : Prop :=
  exists pre tl root paths conds db em tr ren,
    h = pre ++ [ New tl (TemplateLoader root paths conds);
                 New options (GeneratorOptions tl db em tr ren out) ]
    /\ (if with_renamer then exists r, ren = Some r else ren = None).

(** Html-style generators are configured for the html output directory and
    with a renamer, plain ones for the dom output directory and without. *)
Definition output_by_kind (dom_output_dir html_output_dir : string)
    (h : list Event) (ev : Event) : Prop :=
  match ev with
  | New _ (HtmlFrogSystem options)
  | New _ (NativeImplementationSystem options _)
  | New _ (HtmlInterfacesSystem options _) =>
      composed_into html_output_dir true options h
  | New _ (InterfacesSystem options)
  | New _ (DummyImplementationSystem options)
  | New _ (FrogSystem options) =>
      composed_into dom_output_dir false options h
  | _ => True
  end.

(** * Proofs *)

(** ** The model computes *)

Example join_example :
  path_join "lib/dom/scripts" [".."; "src"] = "lib/dom/scripts/../src".
Proof. reflexivity. Qed.

Example join_absolute : path_join "a" ["/b"; "c"] = "/b/c".
Proof. reflexivity. Qed.

Example split_example :
  split_comma "frog,dummy,htmlfrog,htmldartium"
  = ["frog"; "dummy"; "htmlfrog"; "htmldartium"].
Proof. reflexivity. Qed.

Example split_empty : split_comma "" = [""].
Proof. reflexivity. Qed.

Example Generate_empty_list :
  Generate quiet "scripts" [] "db" false "out/dom" "out/html" world0
  = (Ok tt,
     mkWorld
       [ New 0 DartGenerator;
         LoadAuxiliary 0 "scripts/../src";
         New 1 (Database "db");
         Load 1;
         FilterMembersWithUnidentifiedTypes 0 1;
         New 2 (Database_Clone 1);
         FilterInterfaces 0 2 ["WebKit"; "Dart"] ["WebKit"] ["WebKit"; "Dart"];
         RenameTypes 0 2 _webkit_renames true;
         FixEventTargets 0 2;
         New 3 MultiEmitter;
         LoggerInfo "Flush...";
         Flush 3 ]
       [ mkCell DartGenerator ∅; mkCell (Database "db") ∅;
         mkCell (Database_Clone 1) ∅; mkCell MultiEmitter ∅ ]).
Proof. reflexivity. Qed.

Example GenerateSingleFile_example :
  trace (snd (GenerateSingleFile quiet ["frog"; "bogus"] world0))
  = [ LoggerInfo "Copy dom_frog to frog/";
      SubprocessCall
        ["cd ../generated ; ../../../tools/copy_dart.py ../frog dom_frog.dart"]
        true ].
Proof. reflexivity. Qed.

(** [--systems ''] asks for the single identifier [''], which is not
    supported. *)
Example main_empty_systems :
  fst (main quiet "scripts" (mkOptions "" None false) world0)
  = Raise (Exception "Unsupported system_name ").
Proof. vm_compute. reflexivity. Qed.

(** ** Plans are followed *)

Section PlanFacts.

Variable raises : Collaborators.

Lemma bind_assoc {A B C} (m : M A) (f : A -> M B) (g : B -> M C) w :
  bind (bind m f) g w = bind m (fun x => bind (f x) g) w.
Proof. unfold bind. destruct (m w) as [[a|e] w1]; reflexivity. Qed.

Lemma exec_cons ev evs fin w :
  exec raises (ev :: evs, fin) w
  = match raises (trace w) ev with
    | Some detail =>
        (Raise (CollaboratorError ev detail),
         mkWorld (trace w ++ [ev]) (heap w))
    | None =>
        exec raises (evs, fin)
          (mkWorld (trace w ++ [ev]) (effect ev (heap w)))
    end.
Proof.
  unfold exec, bind; cbn [fst snd exec_events].
  unfold bind, perform. destruct (raises (trace w) ev); reflexivity.
Qed.

Lemma exec_nil fin w : exec raises ([], fin) w = (finish fin, w).
Proof. destruct fin; reflexivity. Qed.

Lemma exec_outcome evs fin w r w' :
  exec raises (evs, fin) w = (r, w') ->
  exists d, trace w' = trace w ++ d /\ Outcome raises (trace w) evs fin d r.
Proof.
  revert w. induction evs as [|ev evs IH]; intros w H.
  - rewrite exec_nil in H. injection H as <- <-.
    exists []. split; [now rewrite app_nil_r | constructor].
  - rewrite exec_cons in H.
    destruct (raises (trace w) ev) as [detail|] eqn:E.
    + injection H as <- <-. exists [ev]. split; [reflexivity|].
      now constructor.
    + apply IH in H as (d & Ht & Ho). cbn [trace] in Ht, Ho.
      exists (ev :: d). split.
      * now rewrite Ht, <- app_assoc.
      * now constructor.
Qed.

Lemma effect_length ev h :
  length (effect ev h)
  = match ev with New _ _ => S (length h) | _ => length h end.
Proof.
  destruct ev; cbn [effect]; try reflexivity.
  - now rewrite length_app, Nat.add_comm.
  - destruct (h !! target); [apply length_insert | reflexivity].
Qed.

(** A plan that ran to its end allocated what it announced. *)
Lemma exec_events_allocs evs w w' :
  exec_events raises evs w = (Ok tt, w') ->
  length (heap w') = allocs evs + length (heap w).
Proof.
  revert w. induction evs as [|ev evs IH]; intros w H.
  - injection H as <-. reflexivity.
  - cbn [exec_events] in H. unfold bind at 1, perform in H.
    destruct (raises (trace w) ev); [discriminate|].
    apply IH in H. cbn [heap] in H. rewrite H, effect_length.
    destruct ev; cbn [allocs]; lia.
Qed.

Lemma exec_events_app evs1 evs2 w :
  exec_events raises (evs1 ++ evs2) w
  = (exec_events raises evs1 ;; exec_events raises evs2) w.
Proof.
  revert w. induction evs1 as [|ev evs1 IH]; intros w.
  - reflexivity.
  - cbn [app exec_events]. unfold bind in *.
    destruct (perform raises ev w) as [[[]|e] w1];
      [rewrite IH|]; reflexivity.
Qed.

Lemma planned_then m1 m2 p1 p2 :
  planned raises m1 p1 ->
  planned raises m2 p2 ->
  planned raises (m1 ;; m2) (fun n => then_plan (p1 n) p2 n).
Proof.
  intros H1 H2 w. unfold bind at 1. rewrite H1.
  set (n := length (heap w)). unfold then_plan.
  destruct (p1 n) as [evs1 fin1] eqn:E1. cbn [fst snd].
  destruct fin1 as [e|]; unfold exec; cbn [fst snd].
  - unfold bind.
    destruct (exec_events raises evs1 w) as [[[]|e'] w1]; reflexivity.
  - unfold bind. rewrite exec_events_app. unfold bind.
    destruct (exec_events raises evs1 w) as [[[]|e'] w1] eqn:E;
      [|reflexivity].
    cbn [ret]. rewrite H2.
    apply exec_events_allocs in E. fold n in E. rewrite E.
    reflexivity.
Qed.

(** *** Stepping a run and its plan together *)

Lemma step_new n o (k : ref -> M unit) evs fin :
  (forall w1, length (heap w1) = S n -> k n w1 = exec raises (evs, fin) w1) ->
  forall w, length (heap w) = n ->
    (r <- new raises o ;; k r) w = exec raises (New n o :: evs, fin) w.
Proof.
  intros Hk w Hn. rewrite exec_cons. unfold bind at 1, new.
  rewrite Hn. unfold bind, perform, ret.
  destruct (raises (trace w) (New n o)); [reflexivity|].
  apply Hk. cbn [heap effect]. rewrite length_app, Hn. cbn. lia.
Qed.

Lemma step_perform n ev (m : M unit) evs fin :
  allocs [ev] = 0 ->
  (forall w1, length (heap w1) = n -> m w1 = exec raises (evs, fin) w1) ->
  forall w, length (heap w) = n ->
    (perform raises ev ;; m) w = exec raises (ev :: evs, fin) w.
Proof.
  intros Hev Hm w Hn. rewrite exec_cons. unfold bind at 1, perform.
  destruct (raises (trace w) ev); [reflexivity|].
  apply Hm. cbn [heap]. rewrite effect_length.
  destruct ev; try assumption. discriminate.
Qed.

Lemma step_last ev w : perform raises ev w = exec raises ([ev], None) w.
Proof.
  rewrite exec_cons. unfold perform.
  destruct (raises (trace w) ev); reflexivity.
Qed.

Lemma step_throw {A} e (k : A -> M unit) w :
  (x <- throw e ;; k x) w = exec raises ([], Some e) w.
Proof. reflexivity. Qed.

Ltac step :=
  rewrite ?bind_assoc;
  first
    [ apply step_throw
    | apply step_last
    | eapply step_new; [intros ? ? | eassumption]
    | eapply step_perform; [reflexivity | intros ? ? | eassumption] ].

Section DispatchPlanned.

Variables (auxiliary_dir template_dir : string).
Variables (generator common_database webkit_database emitters : ref).
Variables (dom_output_dir html_output_dir : string).

Local Abbreviation dispatch' :=
  (dispatch raises auxiliary_dir template_dir generator common_database
    webkit_database emitters dom_output_dir html_output_dir).
Local Abbreviation dispatch_plan' :=
  (dispatch_plan auxiliary_dir template_dir generator common_database
    webkit_database emitters dom_output_dir html_output_dir).
Local Abbreviation loop_plan' :=
  (loop_plan auxiliary_dir template_dir generator common_database
    webkit_database emitters dom_output_dir html_output_dir).

Lemma dispatch_planned system_name :
  planned raises (dispatch' system_name) (dispatch_plan' system_name).
Proof.
  intros w. generalize (eq_refl (length (heap w))).
  generalize (length (heap w)) at 2 3. intros n Hn.
  unfold dispatch, dispatch_plan.
  destruct (str_in system_name ["htmlfrog"; "htmldartium"]).
  - unfold html_plan.
    destruct (String.eqb system_name "htmlfrog");
      unfold CreateGeneratorOptions, Generate';
      cbn [app CreateGeneratorOptions_plan Generate'_plan];
      repeat step.
  - unfold plain_plan, interface_plan.
    destruct (String.eqb system_name "dummy");
      [|destruct (String.eqb system_name "frog")];
      unfold CreateGeneratorOptions, Generate';
      cbn [app CreateGeneratorOptions_plan Generate'_plan];
      repeat step.
Qed.

Lemma loop_planned system_names :
  planned raises (for_each dispatch' system_names)
    (loop_plan' system_names).
Proof.
  induction system_names as [|x l IH].
  - intros w. reflexivity.
  - cbn [for_each loop_plan].
    apply (planned_then _ _ _ _ (dispatch_planned x) IH).
Qed.

End DispatchPlanned.

Lemma flush_planned emitters :
  planned raises
    (perform raises (LoggerInfo "Flush...") ;; perform raises (Flush emitters))
    (fun _ => ([LoggerInfo "Flush..."; Flush emitters], None)).
Proof.
  intros w. eapply step_perform; [reflexivity | | reflexivity].
  intros w1 _. apply step_last.
Qed.

Lemma Generate_planned current_dir system_names database_dir
    use_database_cache dom_output_dir html_output_dir :
  planned raises
    (Generate raises current_dir system_names database_dir
       use_database_cache dom_output_dir html_output_dir)
    (Generate_plan current_dir system_names database_dir
       use_database_cache dom_output_dir html_output_dir).
Proof.
  intros w. generalize (eq_refl (length (heap w))).
  generalize (length (heap w)) at 2 3. intros n Hn.
  unfold Generate, Generate_plan, stages_plan. cbn [app fst snd].
  destruct use_database_cache; do 10 step.
  all: match goal with
       | |- bind (for_each (dispatch _ ?a ?b ?c ?d ?e ?f ?g ?h) ?l) _ ?w
            = _ =>
           pose proof (planned_then _ _ _ _
                         (loop_planned a b c d e f g h l)
                         (flush_planned f) w) as Hp
       end.
  all: etransitivity; [exact Hp|]; clear Hp.
  all: match goal with
       | H : length (heap ?w) = _ |- exec _ _ ?w = _ => rewrite H
       end.
  all: unfold then_plan, backends_plan; cbn [Nat.add].
  all: match goal with
       | |- context [loop_plan ?a ?b ?c ?d ?e ?f ?g ?h ?l ?m] =>
           destruct (loop_plan a b c d e f g h l m) as [evs [e'|]]
       end.
  all: cbn [fst snd]; rewrite ?app_nil_r; reflexivity.
Qed.

End PlanFacts.

(** ** What a planned run can do *)

Section OutcomeFacts.

Variable raises : Collaborators.

Lemma Outcome_prefix h evs fin d r :
  Outcome raises h evs fin d r -> d `prefix_of` evs.
Proof.
  induction 1 as [h fin | h ev evs fin detail _ | h ev evs fin d r _ _ IH].
  - apply prefix_nil.
  - apply (prefix_app [ev] [] evs), prefix_nil.
  - apply (prefix_app [ev] d evs), IH.
Qed.

(** Either every planned call was made and none raised, or the last call
    made is the one that raised. *)
Lemma Outcome_cases h evs fin d r :
  Outcome raises h evs fin d r ->
  (d = evs /\ r = finish fin)
  \/ (exists pre ev detail,
        d = pre ++ [ev] /\ raises (h ++ pre) ev = Some detail
        /\ r = Raise (CollaboratorError ev detail)).
Proof.
  induction 1 as [h fin | h ev evs fin detail E | h ev evs fin d r E _ IH].
  - now left.
  - right. exists [], ev, detail. now rewrite app_nil_r.
  - destruct IH as [[-> ->] | (pre & ev' & detail & -> & E' & ->)].
    + now left.
    + right. exists (ev :: pre), ev', detail.
      now rewrite <- app_assoc in E'.
Qed.

(** No call is made after one that raised. *)
Lemma Outcome_stop h evs fin d r :
  Outcome raises h evs fin d r ->
  forall pre ev post detail,
    d = pre ++ ev :: post ->
    raises (h ++ pre) ev = Some detail ->
    post = [] /\ r = Raise (CollaboratorError ev detail).
Proof.
  induction 1 as [h fin | h ev evs fin detail E | h ev evs fin d r E _ IH];
    intros pre ev' post detail' Hd Hr.
  - now destruct pre.
  - destruct pre as [|x pre]; [|now destruct pre].
    injection Hd as <- <-. rewrite app_nil_r in Hr.
    rewrite E in Hr. now injection Hr as <-.
  - destruct pre as [|x pre].
    + injection Hd as <- _. rewrite app_nil_r in Hr. congruence.
    + injection Hd as <- ->.
      apply (IH pre ev' post detail' eq_refl).
      now rewrite <- app_assoc.
Qed.

Lemma Outcome_Ok h evs fin d :
  Outcome raises h evs fin d (Ok tt) -> d = evs /\ fin = None.
Proof.
  intros H. destruct (Outcome_cases _ _ _ _ _ H) as [[-> E]|(?&?&?&_&_&?)];
    [|discriminate].
  split; [reflexivity|]. now destruct fin.
Qed.

Lemma Outcome_quiet h evs fin d r :
  (forall h' ev, raises h' ev = None) ->
  Outcome raises h evs fin d r -> d = evs /\ r = finish fin.
Proof.
  intros Hq H.
  destruct (Outcome_cases _ _ _ _ _ H) as [?|(pre & ev & ? & _ & E & _)];
    [assumption|].
  rewrite Hq in E. discriminate.
Qed.

(** A run that follows a plan: what it adds to the trace. *)
Lemma planned_outcome m p w r w' :
  planned raises m p ->
  m w = (r, w') ->
  exists d,
    trace w' = trace w ++ d
    /\ Outcome raises (trace w) (fst (p (length (heap w))))
         (snd (p (length (heap w)))) d r.
Proof.
  intros Hp H. rewrite Hp in H.
  destruct (p (length (heap w))) as [evs fin]. now apply exec_outcome.
Qed.

End OutcomeFacts.

(** ** Lists of calls *)

Lemma prefix_app_cases {A} (d a b : list A) :
  d `prefix_of` a ++ b ->
  d `prefix_of` a \/ exists d', d = a ++ d' /\ d' `prefix_of` b.
Proof.
  revert d. induction a as [|x a IH]; intros d H.
  - right. now exists d.
  - destruct d as [|y d]; [left; apply prefix_nil|].
    cbn [app] in H. pose proof (prefix_cons_inv_1 _ _ _ _ H) as ->.
    apply prefix_cons_inv_2, IH in H as [H | (d' & -> & H)].
    + left. now apply prefix_cons.
    + right. now exists d'.
Qed.

Lemma Forall_prefix {A} (P : A -> Prop) (d l : list A) :
  d `prefix_of` l -> Forall P l -> Forall P d.
Proof. intros [k ->] H. now apply Forall_app in H as [H _]. Qed.

(** If [ev] occurs in [a ++ rest] and cannot be in [a], it lies in [rest]. *)
Lemma split_after {A} (P : A -> Prop) (a rest pre post : list A) ev :
  Forall (fun x => ~ P x) a ->
  P ev ->
  a ++ rest = pre ++ ev :: post ->
  exists mid, pre = a ++ mid /\ rest = mid ++ ev :: post.
Proof.
  revert pre. induction a as [|x a IH]; intros pre Ha Hev H.
  - now exists pre.
  - apply Forall_cons in Ha as [Hx Ha].
    destruct pre as [|y pre]; cbn [app] in H; injection H as -> H.
    + contradiction.
    + destruct (IH pre Ha Hev H) as (mid & -> & ->). now exists mid.
Qed.

(** ** Facts about the plans *)

Section PlanShape.

Variables (auxiliary_dir template_dir : string).
Variables (generator common_database webkit_database emitters : ref).
Variables (dom_output_dir html_output_dir : string).

Local Abbreviation dispatch_plan' :=
  (dispatch_plan auxiliary_dir template_dir generator common_database
    webkit_database emitters dom_output_dir html_output_dir).
Local Abbreviation loop_plan' :=
  (loop_plan auxiliary_dir template_dir generator common_database
    webkit_database emitters dom_output_dir html_output_dir).

(** Every call of a dispatch is a backend call; none is a stage or a
    flush. *)
Lemma dispatch_plan_calls system_name n :
  Forall (fun ev => is_backend_call ev = true /\ is_stage ev = false
                    /\ is_flush ev = false)
         (fst (dispatch_plan' system_name n)).
Proof.
  unfold dispatch_plan, html_plan, plain_plan,
    interface_plan, CreateGeneratorOptions_plan, Generate'_plan.
  destruct (str_in system_name ["htmlfrog"; "htmldartium"]);
    [destruct (String.eqb system_name "htmlfrog")
    |destruct (String.eqb system_name "dummy");
     [|destruct (String.eqb system_name "frog")]];
    cbn [fst app]; repeat constructor.
Qed.

Lemma loop_plan_Forall (P : Event -> Prop) :
  (forall x n, Forall P (fst (dispatch_plan' x n))) ->
  forall system_names n, Forall P (fst (loop_plan' system_names n)).
Proof.
  intros Hd system_names.
  induction system_names as [|x l IH]; intros n; [constructor|].
  cbn [loop_plan]. unfold then_plan.
  specialize (Hd x n).
  destruct (dispatch_plan' x n) as [evs [e|]]; cbn [fst snd] in *;
    [assumption|].
  apply Forall_app. split; [assumption | apply IH].
Qed.

(** How a dispatch ends when no call raises. *)
Lemma dispatch_plan_fin system_name n :
  snd (dispatch_plan' system_name n)
  = if supported system_name then None
    else Some (Exception ("Unsupported system_name " +:+ system_name)).
Proof.
  unfold dispatch_plan, html_plan, plain_plan, supported,
    str_in.
  cbn [existsb].
  destruct (String.eqb system_name "htmlfrog"),
    (String.eqb system_name "htmldartium"),
    (String.eqb system_name "dummy"),
    (String.eqb system_name "frog"); reflexivity.
Qed.

(** The loop ends with the exception for the first unsupported
    identifier, if there is one. *)
Lemma loop_plan_fin system_names n :
  snd (loop_plan' system_names n)
  = match List.find (fun x => negb (supported x)) system_names with
    | Some x => Some (Exception ("Unsupported system_name " +:+ x))
    | None => None
    end.
Proof.
  revert n. induction system_names as [|x l IH]; intros n; [reflexivity|].
  cbn [loop_plan List.find]. unfold then_plan.
  pose proof (dispatch_plan_fin x n) as Hx.
  destruct (dispatch_plan' x n) as [evs fin]; cbn [fst snd] in *.
  destruct (supported x); subst fin; cbn [negb snd]; [apply IH|reflexivity].
Qed.

End PlanShape.

Lemma stages_plan_calls current_dir database_dir use_database_cache n :
  Forall (fun ev => is_backend_call ev = false /\ is_flush ev = false)
         (stages_plan current_dir database_dir use_database_cache n).
Proof. destruct use_database_cache; repeat constructor. Qed.

(** The calls of [Generate] after the stages. *)
Lemma Generate_plan_rest current_dir system_names database_dir
    use_database_cache dom_output_dir html_output_dir n :
  exists rest,
    fst (Generate_plan current_dir system_names database_dir
           use_database_cache dom_output_dir html_output_dir n)
    = stages_plan current_dir database_dir use_database_cache n ++ rest
    /\ Forall (fun ev => is_stage ev = false) rest.
Proof.
  unfold Generate_plan. cbn [fst]. eexists. split; [reflexivity|].
  constructor; [reflexivity|]. apply Forall_app. split.
  - unfold backends_plan.
    eapply Forall_impl; [apply loop_plan_Forall, dispatch_plan_calls|].
    now intros ev (_ & ? & _).
  - destruct (snd _); repeat constructor.
Qed.

(** ** The pipeline stages come first *)

(** C1.  In every run of [Generate], whatever the collaborators do, the calls
    made begin with the fixed stage sequence [stages_plan]: the base database
    is loaded (from cache when [use_database_cache] is set, fresh otherwise),
    members with unidentified types are pruned on the base database, the
    working clone is taken, filtered, renamed in strict mode with
    [_webkit_renames], and [FixEventTargets] follows the rename at once.
    Either the run raises inside that sequence, or the sequence is complete
    and no stage call is ever made again (so each stage, the prune included,
    happens exactly once).  No backend call (resolution, configuration or
    generator run) is made before the sequence is complete. *)
Theorem Generate_stages_first raises current_dir system_names database_dir
    use_database_cache dom_output_dir html_output_dir w r w' :
  Generate raises current_dir system_names database_dir use_database_cache
    dom_output_dir html_output_dir w = (r, w') ->
  let stages :=
    stages_plan current_dir database_dir use_database_cache
      (length (heap w)) in
  exists d,
    trace w' = trace w ++ d
    /\ ((exists rest,
           d = stages ++ rest /\ Forall (fun ev => is_stage ev = false) rest)
        \/ (exists e, r = Raise e /\ d `prefix_of` stages))
    /\ (forall pre ev post,
          d = pre ++ ev :: post -> is_backend_call ev = true ->
          exists mid, pre = stages ++ mid).
Proof.
  intros H stages.
  destruct (planned_outcome _ _ _ _ _ _
              (Generate_planned raises current_dir system_names database_dir
                 use_database_cache dom_output_dir html_output_dir) H)
    as (d & Ht & Ho).
  destruct (Generate_plan_rest current_dir system_names database_dir
              use_database_cache dom_output_dir html_output_dir
              (length (heap w))) as (rest & Hp & Hrest).
  fold stages in Hp. rewrite Hp in Ho.
  pose proof (Outcome_prefix _ _ _ _ _ _ Ho) as Hpre.
  assert (Hcases :
    (exists rest', d = stages ++ rest'
                   /\ Forall (fun ev => is_stage ev = false) rest')
    \/ (exists e, r = Raise e /\ d `prefix_of` stages)).
  { destruct (Outcome_cases _ _ _ _ _ _ Ho)
      as [[-> _] | (p & ev & detail & Hd & _ & ->)].
    - left. now exists rest.
    - apply prefix_app_cases in Hpre as [Hpre | (d' & -> & Hd')].
      + right. eauto.
      + left. exists d'. split; [reflexivity|].
        eapply Forall_prefix; eassumption. }
  exists d. split; [assumption|]. split; [assumption|].
  intros pre ev post Hd Hev.
  assert (Hst : Forall (fun x => ~ is_backend_call x = true) stages).
  { eapply Forall_impl; [apply stages_plan_calls|].
    intros x [Hx _]. cbn beta in Hx. now rewrite Hx. }
  destruct Hcases as [(rest' & -> & _) | (e & _ & Hp')].
  - destruct (split_after (fun x => is_backend_call x = true) _ _ _ _ _
                Hst Hev Hd) as (mid & -> & _).
    now exists mid.
  - exfalso. destruct Hp' as [k Hk]. rewrite Hd in Hk.
    rewrite Hk in Hst. apply Forall_app in Hst as [Hst _].
    apply Forall_app in Hst as [_ Hst]. apply Forall_cons in Hst as [Hst _].
    contradiction.
Qed.

Lemma Generate_stages_first_witness :
  let w := snd (Generate quiet "scripts" ["dummy"] "db" true "dom" "html"
                  world0) in
  let stages := stages_plan "scripts" "db" true 0 in
  exists d,
    trace w = [] ++ d
    /\ ((exists rest,
           d = stages ++ rest /\ Forall (fun ev => is_stage ev = false) rest)
        \/ (exists e, Ok tt = Raise e /\ d `prefix_of` stages))
    /\ (forall pre ev post,
          d = pre ++ ev :: post -> is_backend_call ev = true ->
          exists mid, pre = stages ++ mid).
Proof.
  apply (Generate_stages_first quiet "scripts" ["dummy"] "db" true "dom"
           "html" world0 (Ok tt)).
  vm_compute. reflexivity.
Defined.

(** ** The buffered writer *)

Lemma emitter_no_flush d st :
  Forall (fun ev => is_flush ev = false) d ->
  fold_left emitter_step d st = (fst st ++ generated d, snd st).
Proof.
  revert st. induction d as [|ev d IH]; intros st H.
  - cbn. rewrite app_nil_r. now destruct st.
  - apply Forall_cons in H as [Hev H]. cbn [fold_left].
    rewrite (IH _ H). destruct ev; try discriminate; try now destruct st.
    cbn [emitter_step generated fst snd]. now rewrite <- app_assoc.
Qed.

Lemma written_no_flush d :
  Forall (fun ev => is_flush ev = false) d -> written d = [].
Proof. intros H. unfold written. now rewrite emitter_no_flush. Qed.

Lemma written_final_flush d emitters :
  Forall (fun ev => is_flush ev = false) d ->
  written (d ++ [LoggerInfo "Flush..."; Flush emitters]) = generated d.
Proof.
  intros H. unfold written. rewrite fold_left_app.
  rewrite (emitter_no_flush _ _ H). reflexivity.
Qed.

(** ** The shape of a whole run *)

Lemma Generate_plan_body current_dir system_names database_dir
    use_database_cache dom_output_dir html_output_dir n :
  fst (Generate_plan current_dir system_names database_dir
         use_database_cache dom_output_dir html_output_dir n)
  = body_plan current_dir system_names database_dir use_database_cache
      dom_output_dir html_output_dir n
    ++ match snd (backends_plan current_dir system_names dom_output_dir
                    html_output_dir n) with
       | None => [LoggerInfo "Flush..."; Flush (3 + n)]
       | Some _ => []
       end.
Proof.
  unfold Generate_plan, body_plan. cbn [fst].
  now rewrite <- app_assoc.
Qed.

Lemma body_plan_no_flush current_dir system_names database_dir
    use_database_cache dom_output_dir html_output_dir n :
  Forall (fun ev => is_flush ev = false)
    (body_plan current_dir system_names database_dir use_database_cache
       dom_output_dir html_output_dir n).
Proof.
  unfold body_plan. apply Forall_app. split.
  - eapply Forall_impl; [apply stages_plan_calls|]. now intros ev [_ ?].
  - constructor; [reflexivity|]. unfold backends_plan.
    eapply Forall_impl; [apply loop_plan_Forall, dispatch_plan_calls|].
    now intros ev (_ & _ & ?).
Qed.

Lemma backends_plan_fin current_dir system_names dom_output_dir
    html_output_dir n :
  snd (backends_plan current_dir system_names dom_output_dir
         html_output_dir n)
  = match List.find (fun x => negb (supported x)) system_names with
    | Some x => Some (Exception ("Unsupported system_name " +:+ x))
    | None => None
    end.
Proof. apply loop_plan_fin. Qed.

(** A run whose last call is a generator run made no flush. *)
Lemma generate_last_no_flush (X T pre : list Event) ev :
  Forall (fun ev => is_flush ev = false) X ->
  Forall (fun ev => is_generate ev = false) T ->
  is_generate ev = true ->
  pre ++ [ev] `prefix_of` X ++ T ->
  Forall (fun ev => is_flush ev = false) (pre ++ [ev]).
Proof.
  intros HX HT Hev Hp.
  apply prefix_app_cases in Hp as [Hp | (d' & Hd & Hp)].
  - eapply Forall_prefix; eassumption.
  - destruct d' as [|z d'] using rev_ind.
    + rewrite app_nil_r in Hd. now rewrite Hd.
    + rewrite app_assoc in Hd. apply app_inj_tail in Hd as [_ ->].
      eapply Forall_prefix in HT; [|exact Hp].
      apply Forall_app in HT as [_ HT]. apply Forall_cons in HT as [HT _].
      congruence.
Qed.

Lemma find_unsupported (system_names : list string) y :
  In y system_names -> supported y = false ->
  exists x,
    List.find (fun x => negb (supported x)) system_names = Some x
    /\ In x system_names /\ supported x = false.
Proof.
  intros Hin Hy.
  destruct (List.find (fun x => negb (supported x)) system_names) as [x|] eqn:E.
  - exists x. apply find_some in E as [? E].
    repeat split; [assumption|]. now destruct (supported x).
  - eapply find_none in E; [|exact Hin]. cbn beta in E.
    rewrite Hy in E. discriminate.
Qed.

(** What a run of [Generate] adds to the trace, against its plan. *)
Lemma Generate_run raises current_dir system_names database_dir
    use_database_cache dom_output_dir html_output_dir w r w' :
  Generate raises current_dir system_names database_dir use_database_cache
    dom_output_dir html_output_dir w = (r, w') ->
  let n := length (heap w) in
  let fin :=
    snd (backends_plan current_dir system_names dom_output_dir
           html_output_dir n) in
  exists d,
    trace w' = trace w ++ d
    /\ Outcome raises (trace w)
         (body_plan current_dir system_names database_dir
            use_database_cache dom_output_dir html_output_dir n
          ++ match fin with
             | None => [LoggerInfo "Flush..."; Flush (3 + n)]
             | Some _ => []
             end)
         fin d r.
Proof.
  intros H n fin.
  destruct (planned_outcome _ _ _ _ _ _
              (Generate_planned raises current_dir system_names database_dir
                 use_database_cache dom_output_dir html_output_dir) H)
    as (d & Ht & Ho).
  exists d. split; [assumption|].
  rewrite Generate_plan_body in Ho. exact Ho.
Qed.

(** ** Unsupported identifiers *)

(** C2.  When the requested list contains an identifier outside
    [htmlfrog], [htmldartium], [dummy], [frog], the run never returns
    normally, whatever the collaborators do: it ends in an exception, the
    writer is never flushed and so nothing is written, not even for the
    backends dispatched before the offending identifier was reached.  The
    exception is the driver's own, naming the first unsupported identifier
    of the list, unless a collaborator call raised before the driver got
    that far (then that call is the last one made and its exception is the
    one propagated).  In particular, with collaborators that never raise the
    run ends in the exception naming the identifier. *)
Theorem unsupported_identifier_stops raises current_dir system_names
    database_dir use_database_cache dom_output_dir html_output_dir w r w' y :
  In y system_names ->
  supported y = false ->
  Generate raises current_dir system_names database_dir use_database_cache
    dom_output_dir html_output_dir w = (r, w') ->
  exists x d,
    List.find (fun x => negb (supported x)) system_names = Some x
    /\ In x system_names /\ supported x = false
    /\ trace w' = trace w ++ d
    /\ Forall (fun ev => is_flush ev = false) d
    /\ written d = []
    /\ (r = Raise (Exception ("Unsupported system_name " +:+ x))
        \/ exists pre ev detail,
             d = pre ++ [ev] /\ raises (trace w ++ pre) ev = Some detail
             /\ r = Raise (CollaboratorError ev detail))
    /\ ((forall h ev, raises h ev = None) ->
        r = Raise (Exception ("Unsupported system_name " +:+ x))).
Proof.
  intros Hin Hy H.
  destruct (find_unsupported _ _ Hin Hy) as (x & Hfind & Hx & Hsx).
  destruct (Generate_run _ _ _ _ _ _ _ _ _ _ H) as (d & Ht & Ho).
  cbn zeta in Ho. rewrite backends_plan_fin, Hfind, app_nil_r in Ho.
  exists x, d.
  assert (Hnf : Forall (fun ev => is_flush ev = false) d).
  { eapply Forall_prefix; [exact (Outcome_prefix _ _ _ _ _ _ Ho)|].
    apply body_plan_no_flush. }
  repeat split; try assumption.
  - now apply written_no_flush.
  - destruct (Outcome_cases _ _ _ _ _ _ Ho) as [[_ ->] | Hc];
      [now left | now right].
  - intros Hq. now destruct (Outcome_quiet _ _ _ _ _ _ Hq Ho) as [_ ->].
Qed.

Lemma unsupported_identifier_stops_witness :
  let w' := snd (Generate quiet "scripts" ["dummy"; "bogus"; "frog"] "db"
                   false "dom" "html" world0) in
  let r : Result unit :=
    Raise (Exception "Unsupported system_name bogus") in
  exists x d,
    List.find (fun x => negb (supported x)) ["dummy"; "bogus"; "frog"] = Some x
    /\ In x ["dummy"; "bogus"; "frog"] /\ supported x = false
    /\ trace w' = [] ++ d
    /\ Forall (fun ev => is_flush ev = false) d
    /\ written d = []
    /\ (r = Raise (Exception ("Unsupported system_name " +:+ x))
        \/ exists pre ev detail,
             d = pre ++ [ev] /\ quiet ([] ++ pre) ev = Some detail
             /\ r = Raise (CollaboratorError ev detail))
    /\ ((forall h ev, quiet h ev = None) ->
        r = Raise (Exception ("Unsupported system_name " +:+ x))).
Proof.
  apply (unsupported_identifier_stops quiet "scripts"
           ["dummy"; "bogus"; "frog"] "db" false "dom" "html" world0
           (Raise (Exception "Unsupported system_name bogus")) _ "bogus").
  - simpl. auto.
  - reflexivity.
  - vm_compute. reflexivity.
Defined.

(** ** A failing generator run *)

(** C5.  If a generator run ([generator.Generate] on some system) raises, the
    driver stops there: the exception of that call is the result of the whole
    run, no call at all is made afterwards (so no later backend is resolved
    or run), and the writer has not been flushed, so nothing was written. *)
Theorem failed_generator_run_stops raises current_dir system_names
    database_dir use_database_cache dom_output_dir html_output_dir w r w'
    pre ev post detail :
  Generate raises current_dir system_names database_dir use_database_cache
    dom_output_dir html_output_dir w = (r, w') ->
  trace w' = trace w ++ pre ++ ev :: post ->
  is_generate ev = true ->
  raises (trace w ++ pre) ev = Some detail ->
  r = Raise (CollaboratorError ev detail)
  /\ post = []
  /\ Forall (fun ev => is_flush ev = false) (pre ++ [ev])
  /\ written (pre ++ [ev]) = [].
Proof.
  intros H Ht Hev Hr.
  destruct (Generate_run _ _ _ _ _ _ _ _ _ _ H) as (d & Ht' & Ho).
  cbn zeta in Ho. rewrite Ht' in Ht. apply app_inv_head in Ht. subst d.
  destruct (Outcome_stop _ _ _ _ _ _ Ho pre ev post detail eq_refl Hr)
    as [-> ->].
  assert (Hnf : Forall (fun ev => is_flush ev = false) (pre ++ [ev])).
  { eapply generate_last_no_flush;
      [apply body_plan_no_flush | | exact Hev
      | exact (Outcome_prefix _ _ _ _ _ _ Ho)].
    destruct (snd _); repeat constructor. }
  repeat split; [assumption|]. now apply written_no_flush.
Qed.

Lemma failed_generator_run_stops_witness :
  let pre :=
    take 18 (body_plan "scripts" ["dummy"; "frog"] "db" false "dom" "html" 0)
  in
  let ev := GeneratorGenerate 0 2 7 1 _webkit_renames in
  (Raise (CollaboratorError ev "GenerationError") : Result unit)
  = Raise (CollaboratorError ev "GenerationError")
  /\ @nil Event = []
  /\ Forall (fun ev => is_flush ev = false) (pre ++ [ev])
  /\ written (pre ++ [ev]) = [].
Proof.
  intros pre ev.
  apply (failed_generator_run_stops failing_generator "scripts"
           ["dummy"; "frog"] "db" false "dom" "html" world0
           (Raise (CollaboratorError ev "GenerationError"))
           (mkWorld (pre ++ [ev])
              (heap (snd (Generate failing_generator "scripts"
                            ["dummy"; "frog"] "db" false "dom" "html"
                            world0))))
           pre ev [] "GenerationError").
  - vm_compute. reflexivity.
  - reflexivity.
  - reflexivity.
  - vm_compute. reflexivity.
Defined.

(** ** The terminal flush *)

Section Segments.

Variables (auxiliary_dir template_dir : string).
Variables (generator common_database webkit_database emitters : ref).
Variables (dom_output_dir html_output_dir : string).

Local Abbreviation dispatch_plan' :=
  (dispatch_plan auxiliary_dir template_dir generator common_database
    webkit_database emitters dom_output_dir html_output_dir).
Local Abbreviation loop_plan' :=
  (loop_plan auxiliary_dir template_dir generator common_database
    webkit_database emitters dom_output_dir html_output_dir).

(** A dispatch that is planned to complete runs one generator for an
    html-style identifier and two for a plain one. *)
Lemma dispatch_plan_generated system_name n :
  snd (dispatch_plan' system_name n) = None ->
  length (generated (fst (dispatch_plan' system_name n)))
  = if str_in system_name ["htmlfrog"; "htmldartium"] then 1 else 2.
Proof.
  unfold dispatch_plan, html_plan, plain_plan,
    interface_plan, CreateGeneratorOptions_plan, Generate'_plan.
  destruct (str_in system_name ["htmlfrog"; "htmldartium"]);
    [destruct (String.eqb system_name "htmlfrog")
    |destruct (String.eqb system_name "dummy");
     [|destruct (String.eqb system_name "frog")]];
    cbn [fst snd app generated length]; intros H;
    reflexivity || discriminate.
Qed.

(** A loop that is planned to complete is the concatenation of one complete
    dispatch per requested identifier, in order. *)
Lemma loop_plan_segments system_names n :
  snd (loop_plan' system_names n) = None ->
  exists segs,
    fst (loop_plan' system_names n) = concat segs
    /\ Forall2
         (fun name seg =>
            exists k,
              seg = fst (dispatch_plan' name k)
              /\ length (generated seg)
                 = if str_in name ["htmlfrog"; "htmldartium"] then 1 else 2)
         system_names segs.
Proof.
  revert n. induction system_names as [|x l IH]; intros n H.
  - exists []. split; [reflexivity | constructor].
  - cbn [loop_plan] in *. unfold then_plan in *.
      pose proof (dispatch_plan_generated x n) as Hg.
    destruct (dispatch_plan' x n) as [evs [e|]] eqn:E; cbn [fst snd] in *;
      [discriminate|].
    destruct (IH _ H) as (segs & Hc & Hf).
    exists (evs :: segs). split.
    + cbn [concat]. now rewrite Hc.
    + constructor; [|assumption].
      exists n. rewrite E. split; [reflexivity | now apply Hg].
Qed.

End Segments.

(** C6.  A run of [Generate] that ends without error made exactly the calls
    of [body_plan] followed by the log line and one flush of the shared
    emitter: the flush is the last call of the run, no call before it is a
    flush, and everything the generators emitted is written by it.  Before
    the flush come the stages, the construction of the emitter and, for each
    requested identifier in order, one complete dispatch with its generator
    runs; every requested identifier is supported.

    For the empty list the calls are the stages, the construction of the
    emitter, the log line and the flush, and nothing else, so no generator is
    invoked; and when no collaborator call raises the run does end without
    error. *)
Theorem completed_run_flushes_once :
  (forall raises current_dir system_names database_dir use_database_cache
          dom_output_dir html_output_dir w w',
     Generate raises current_dir system_names database_dir
       use_database_cache dom_output_dir html_output_dir w = (Ok tt, w') ->
     let n := length (heap w) in
     let body :=
       body_plan current_dir system_names database_dir use_database_cache
         dom_output_dir html_output_dir n in
     trace w' = trace w ++ body ++ [LoggerInfo "Flush..."; Flush (3 + n)]
     /\ Forall (fun ev => is_flush ev = false) body
     /\ written (body ++ [LoggerInfo "Flush..."; Flush (3 + n)])
        = generated body
     /\ Forall (fun x => supported x = true) system_names
     /\ exists segs,
          body = stages_plan current_dir database_dir use_database_cache n
                 ++ New (3 + n) MultiEmitter :: concat segs
          /\ Forall2
               (fun name seg =>
                  exists k,
                    seg = fst (dispatch_plan
                                 (path_join current_dir [".."; "src"])
                                 (path_join current_dir [".."; "templates"])
                                 n (1 + n) (2 + n) (3 + n)
                                 dom_output_dir html_output_dir name k)
                    /\ length (generated seg)
                       = if str_in name ["htmlfrog"; "htmldartium"]
                         then 1 else 2)
               system_names segs)
  /\ (forall raises current_dir database_dir use_database_cache
             dom_output_dir html_output_dir w,
        let n := length (heap w) in
        let calls :=
          stages_plan current_dir database_dir use_database_cache n
          ++ [New (3 + n) MultiEmitter; LoggerInfo "Flush...";
              Flush (3 + n)] in
        generated calls = []
        /\ (forall r w',
              Generate raises current_dir [] database_dir
                use_database_cache dom_output_dir html_output_dir w
              = (r, w') ->
              exists d, trace w' = trace w ++ d /\ d `prefix_of` calls)
        /\ ((forall h ev, raises h ev = None) ->
            exists w',
              Generate raises current_dir [] database_dir
                use_database_cache dom_output_dir html_output_dir w
              = (Ok tt, w')
              /\ trace w' = trace w ++ calls)).
Proof.
  split.
  - intros raises current_dir system_names database_dir use_database_cache
      dom_output_dir html_output_dir w w' H n body.
    destruct (Generate_run _ _ _ _ _ _ _ _ _ _ H) as (d & Ht & Ho).
    cbn zeta in Ho. fold n in Ho. fold body in Ho.
    destruct (Outcome_Ok _ _ _ _ _ Ho) as [-> Hfin].
    rewrite Hfin in Ht.
    assert (Hnf : Forall (fun ev => is_flush ev = false) body)
      by apply body_plan_no_flush.
    split; [assumption|]. split; [assumption|].
    split; [now apply written_final_flush|]. split.
    + rewrite backends_plan_fin in Hfin. apply List.Forall_forall. intros x Hx.
      destruct (List.find _ system_names) eqn:E; [discriminate|].
      apply (find_none _ _ E) in Hx. cbn beta in Hx.
      now destruct (supported x).
    + destruct (loop_plan_segments _ _ _ _ _ _ _ _ _ _ Hfin)
        as (segs & Hc & Hf).
      exists segs. split; [|exact Hf].
      unfold body, body_plan, backends_plan. now rewrite Hc.
  - intros raises current_dir database_dir use_database_cache
      dom_output_dir html_output_dir w n calls.
    assert (Hcalls :
      body_plan current_dir [] database_dir use_database_cache
        dom_output_dir html_output_dir n
      ++ [LoggerInfo "Flush..."; Flush (3 + n)] = calls).
    { unfold body_plan, calls. cbn [backends_plan loop_plan fst].
      now rewrite <- app_assoc. }
    split; [|split].
    + unfold calls. now destruct use_database_cache.
    + intros r w' H.
      destruct (Generate_run _ _ _ _ _ _ _ _ _ _ H) as (d & Ht & Ho).
      cbn zeta in Ho. cbn [backends_plan loop_plan snd] in Ho.
      fold n in Ho. rewrite Hcalls in Ho.
      exists d. split; [assumption|]. exact (Outcome_prefix _ _ _ _ _ _ Ho).
    + intros Hq.
      destruct (Generate raises current_dir [] database_dir
                  use_database_cache dom_output_dir html_output_dir w)
        as [r w'] eqn:H.
      destruct (Generate_run _ _ _ _ _ _ _ _ _ _ H) as (d & Ht & Ho).
      cbn zeta in Ho. cbn [backends_plan loop_plan snd] in Ho.
      fold n in Ho. rewrite Hcalls in Ho.
      destruct (Outcome_quiet _ _ _ _ _ _ Hq Ho) as [-> ->].
      exists w'. now split.
Qed.

Lemma completed_run_flushes_once_witness :
  let w' := snd (Generate quiet "scripts" ["htmlfrog"; "dummy"] "db" false
                   "dom" "html" world0) in
  let body := body_plan "scripts" ["htmlfrog"; "dummy"] "db" false "dom"
                "html" 0 in
  trace w' = [] ++ body ++ [LoggerInfo "Flush..."; Flush 3]
  /\ Forall (fun ev => is_flush ev = false) body
  /\ written (body ++ [LoggerInfo "Flush..."; Flush 3]) = generated body
  /\ (exists w'',
        Generate quiet "scripts" [] "db" false "dom" "html" world0
        = (Ok tt, w'')
        /\ trace w''
           = [] ++ stages_plan "scripts" "db" false 0
             ++ [New 3 MultiEmitter; LoggerInfo "Flush..."; Flush 3]).
Proof.
  pose proof (proj1 completed_run_flushes_once quiet "scripts"
                ["htmlfrog"; "dummy"] "db" false "dom" "html" world0
                (snd (Generate quiet "scripts" ["htmlfrog"; "dummy"] "db"
                        false "dom" "html" world0))) as H1.
  pose proof (proj2 completed_run_flushes_once quiet "scripts" "db" false
                "dom" "html" world0) as H2.
  cbn zeta in H1, H2.
  destruct H1 as (Ht & Hnf & Hw & _); [vm_compute; reflexivity|].
  destruct H2 as (_ & _ & H2).
  intros w' body. split; [exact Ht|]. split; [exact Hnf|].
  split; [exact Hw|].
  apply H2. reflexivity.
Defined.

(** ** One dispatch *)

Section Dispatch.

Variable raises : Collaborators.
Variables (auxiliary_dir template_dir : string).
Variables (generator common_database webkit_database emitters : ref).
Variables (dom_output_dir html_output_dir : string).

Local Abbreviation dispatch' :=
  (dispatch raises auxiliary_dir template_dir generator common_database
    webkit_database emitters dom_output_dir html_output_dir).
Local Abbreviation dispatch_plan' :=
  (dispatch_plan auxiliary_dir template_dir generator common_database
    webkit_database emitters dom_output_dir html_output_dir).

(** What one iteration of the backend loop adds to the trace, against its
    plan. *)
Lemma dispatch_run system_name w r w' :
  dispatch' system_name w = (r, w') ->
  exists d,
    trace w' = trace w ++ d
    /\ Outcome raises (trace w)
         (fst (dispatch_plan' system_name (length (heap w))))
         (snd (dispatch_plan' system_name (length (heap w)))) d r.
Proof.
  intros H.
  exact (planned_outcome raises _ _ _ _ _
           (dispatch_planned raises auxiliary_dir template_dir generator
              common_database webkit_database emitters dom_output_dir
              html_output_dir system_name) H).
Qed.

Lemma dispatch_plan_unsupported system_name n :
  supported system_name = false ->
  dispatch_plan' system_name n
  = ([ New n (TypeRegistry webkit_database None);
       New (1 + n) (TemplateLoader template_dir
                      ["dom/interface"; "dom"; ""] ∅);
       New (2 + n) (GeneratorOptions (1 + n) webkit_database emitters n
                      None dom_output_dir);
       New (3 + n) (InterfacesSystem (2 + n)) ],
     Some (Exception ("Unsupported system_name " +:+ system_name))).
Proof.
  unfold supported, str_in, dispatch_plan, plain_plan,
    str_in.
  cbn [existsb].
  destruct (String.eqb system_name "htmlfrog"),
    (String.eqb system_name "htmldartium"),
    (String.eqb system_name "dummy"),
    (String.eqb system_name "frog"); try discriminate.
  reflexivity.
Qed.

End Dispatch.

(** ** Resolution of an unsupported identifier *)

(** C3, as the code has it.  Dispatching an identifier outside the four
    supported ones makes at most four calls, in this order: it constructs a
    type registry, the template loader and the generator options of the
    plain interfaces generator, and the interfaces generator itself.  When
    none of them raises, the driver then raises its own exception naming the
    identifier.  Nothing else happens for that identifier: no configuration
    for an implementation generator is composed, no attribute is assigned
    and no generator is run. *)
Theorem unsupported_dispatch_builds_interface_only raises auxiliary_dir
    template_dir generator common_database webkit_database emitters
    dom_output_dir html_output_dir system_name w r w' :
  supported system_name = false ->
  dispatch raises auxiliary_dir template_dir generator common_database
    webkit_database emitters dom_output_dir html_output_dir system_name w
  = (r, w') ->
  let n := length (heap w) in
  let built :=
    [ New n (TypeRegistry webkit_database None);
      New (1 + n) (TemplateLoader template_dir
                     ["dom/interface"; "dom"; ""] ∅);
      New (2 + n) (GeneratorOptions (1 + n) webkit_database emitters n
                     None dom_output_dir);
      New (3 + n) (InterfacesSystem (2 + n)) ] in
  exists d,
    trace w' = trace w ++ d
    /\ d `prefix_of` built
    /\ ((d = built
         /\ r = Raise (Exception ("Unsupported system_name " +:+ system_name)))
        \/ exists pre ev detail,
             d = pre ++ [ev] /\ raises (trace w ++ pre) ev = Some detail
             /\ r = Raise (CollaboratorError ev detail))
    /\ ((forall h ev, raises h ev = None) ->
        d = built
        /\ r = Raise (Exception ("Unsupported system_name " +:+ system_name))).
Proof.
  intros Hx H n built.
  destruct (dispatch_run _ _ _ _ _ _ _ _ _ _ _ _ _ H) as (d & Ht & Ho).
  rewrite dispatch_plan_unsupported in Ho by assumption.
  cbn [fst snd] in Ho. fold n in Ho. fold built in Ho.
  exists d. split; [assumption|].
  split; [exact (Outcome_prefix _ _ _ _ _ _ Ho)|]. split.
  - destruct (Outcome_cases _ _ _ _ _ _ Ho) as [[-> ->] | Hc];
      [now left | now right].
  - intros Hq. exact (Outcome_quiet _ _ _ _ _ _ Hq Ho).
Qed.

Lemma unsupported_dispatch_builds_interface_only_witness :
  let built :=
    [ New 4 (TypeRegistry 2 None);
      New 5 (TemplateLoader "templates" ["dom/interface"; "dom"; ""] ∅);
      New 6 (GeneratorOptions 5 2 3 4 None "dom");
      New 7 (InterfacesSystem 6) ] in
  exists d,
    built = [] ++ d
    /\ d `prefix_of` built
    /\ ((d = built
         /\ (Raise (Exception "Unsupported system_name bogus") : Result unit)
            = Raise (Exception ("Unsupported system_name " +:+ "bogus")))
        \/ exists pre ev detail,
             d = pre ++ [ev] /\ quiet ([] ++ pre) ev = Some detail
             /\ (Raise (Exception "Unsupported system_name bogus")
                 : Result unit)
                = Raise (CollaboratorError ev detail))
    /\ ((forall h ev, quiet h ev = None) ->
        d = built
        /\ (Raise (Exception "Unsupported system_name bogus") : Result unit)
           = Raise (Exception ("Unsupported system_name " +:+ "bogus"))).
Proof.
  intros built.
  apply (unsupported_dispatch_builds_interface_only quiet "src" "templates"
           0 1 2 3 "dom" "html" "bogus"
           loop_world
           (Raise (Exception "Unsupported system_name bogus"))
           (mkWorld built
              (heap (snd (dispatch quiet "src" "templates" 0 1 2 3 "dom"
                            "html" "bogus" loop_world))))).
  - reflexivity.
  - vm_compute. reflexivity.
Defined.

(** The claim as the spec states it fails: in a run for the single
    identifier [bogus], with collaborators that never raise, the run ends in
    the driver's exception for [bogus], and yet a template loader and the
    generator options built from it were composed for that identifier, and
    an interfaces generator was constructed from them, before the exception
    was raised. *)
Lemma unsupported_identifier_configuration_built :
  exists w',
    Generate quiet "scripts" ["bogus"] "db" false "dom" "html" world0
    = (Raise (Exception "Unsupported system_name bogus"), w')
    /\ trace w'
       = stages_plan "scripts" "db" false 0
         ++ [ New 3 MultiEmitter;
              New 4 (TypeRegistry 2 None);
              New 5 (TemplateLoader "scripts/../templates"
                       ["dom/interface"; "dom"; ""] ∅);
              New 6 (GeneratorOptions 5 2 3 4 None "dom");
              New 7 (InterfacesSystem 6) ]
    /\ heap w' !! 6
       = Some (mkCell (GeneratorOptions 5 2 3 4 None "dom") ∅).
Proof.
  eexists. split; [vm_compute; reflexivity|].
  split; vm_compute; reflexivity.
Qed.

(** ** Properties of every call of a run *)

Lemma always_nil J h : always J h [].
Proof. intros pre ev post H. now destruct pre. Qed.

Lemma always_cons J h ev d :
  J h ev -> always J (h ++ [ev]) d -> always J h (ev :: d).
Proof.
  intros Hev Hd pre ev' post H. destruct pre as [|x pre].
  - injection H as <- _. now rewrite app_nil_r.
  - injection H as <- ->.
    specialize (Hd pre ev' post eq_refl).
    now rewrite <- app_assoc in Hd.
Qed.

Lemma always_app J h a b :
  always J h a -> always J (h ++ a) b -> always J h (a ++ b).
Proof.
  revert h. induction a as [|x a IH]; intros h Ha Hb.
  - now rewrite app_nil_r in Hb.
  - cbn [app]. apply always_cons.
    + specialize (Ha [] x a eq_refl). now rewrite app_nil_r in Ha.
    + apply IH.
      * intros pre ev post ->. specialize (Ha (x :: pre) ev post eq_refl).
        now rewrite <- app_assoc.
      * now rewrite <- app_assoc.
Qed.

Lemma always_prefix J h d l :
  d `prefix_of` l -> always J h l -> always J h d.
Proof.
  intros [k ->] Hl pre ev post ->.
  apply (Hl pre ev (post ++ k)). now rewrite <- app_assoc.
Qed.

Lemma loop_plan_always (J : list Event -> Event -> Prop)
    auxiliary_dir template_dir generator common_database webkit_database
    emitters dom_output_dir html_output_dir :
  (forall x n h,
     always J h
       (fst (dispatch_plan auxiliary_dir template_dir generator
               common_database webkit_database emitters dom_output_dir
               html_output_dir x n))) ->
  forall system_names n h,
    always J h
      (fst (loop_plan auxiliary_dir template_dir generator common_database
              webkit_database emitters dom_output_dir html_output_dir
              system_names n)).
Proof.
  intros Hd system_names.
  induction system_names as [|x l IH]; intros n h; [apply always_nil|].
  cbn [loop_plan]. unfold then_plan. specialize (Hd x n h).
  destruct (dispatch_plan _ _ _ _ _ _ _ _ x n) as [evs [e|]];
    cbn [fst snd] in *; [assumption|].
  apply always_app; [assumption | apply IH].
Qed.

(** A property of every call of every dispatch that holds trivially of the
    calls outside the backend loop holds of every call of every run. *)
Lemma Generate_always (J : list Event -> Event -> Prop) :
  (forall auxiliary_dir template_dir generator common_database
          webkit_database emitters dom_output_dir html_output_dir x n h,
     always J h
       (fst (dispatch_plan auxiliary_dir template_dir generator
               common_database webkit_database emitters dom_output_dir
               html_output_dir x n))) ->
  (forall h ev, is_backend_call ev = false -> J h ev) ->
  forall raises current_dir system_names database_dir use_database_cache
         dom_output_dir html_output_dir w r w',
    Generate raises current_dir system_names database_dir
      use_database_cache dom_output_dir html_output_dir w = (r, w') ->
    exists d, trace w' = trace w ++ d /\ forall h, always J h d.
Proof.
  intros Hd Hother raises current_dir system_names database_dir
    use_database_cache dom_output_dir html_output_dir w r w' H.
  destruct (Generate_run _ _ _ _ _ _ _ _ _ _ H) as (d & Ht & Ho).
  exists d. split; [assumption|]. intros h.
  eapply always_prefix; [exact (Outcome_prefix _ _ _ _ _ _ Ho)|].
  cbn zeta. set (n := length (heap w)).
  unfold body_plan. rewrite <- app_assoc. apply always_app.
  { unfold stages_plan. destruct use_database_cache;
      repeat (apply always_cons; [now apply Hother|]); apply always_nil. }
  cbn [app]. apply always_cons; [now apply Hother|].
  apply always_app.
  - unfold backends_plan. apply loop_plan_always. intros x m h'. apply Hd.
  - destruct (snd _); [apply always_nil|].
    repeat (apply always_cons; [now apply Hother|]). apply always_nil.
Qed.

Lemma always_impl (J J' : list Event -> Event -> Prop) h d :
  (forall h ev, J h ev -> J' h ev) -> always J h d -> always J' h d.
Proof. intros HJ H pre ev post Hd. apply HJ, (H pre ev post Hd). Qed.

(** ** Html-style backends: two-stage construction *)

Lemma dispatch_plan_html auxiliary_dir template_dir generator
    common_database webkit_database emitters dom_output_dir html_output_dir
    system_name n :
  str_in system_name ["htmlfrog"; "htmldartium"] = true ->
  dispatch_plan auxiliary_dir template_dir generator common_database
    webkit_database emitters dom_output_dir html_output_dir system_name n
  = ([ New n (HtmlRenamer webkit_database);
       New (1 + n) (TypeRegistry webkit_database (Some n));
       New (2 + n)
         (TemplateLoader template_dir
            (if String.eqb system_name "htmlfrog"
             then ["html/frog"; "html/impl"; "html"; ""]
             else ["dom/native"; "html/dartium"; "html/impl"; ""])
            (if String.eqb system_name "htmlfrog"
             then {[ "DARTIUM" := false; "FROG" := true ]}
             else {[ "DARTIUM" := true; "FROG" := false ]}));
       New (3 + n) (GeneratorOptions (2 + n) webkit_database emitters
                      (1 + n) (Some n) html_output_dir);
       New (4 + n)
         (if String.eqb system_name "htmlfrog"
          then HtmlFrogSystem (3 + n)
          else NativeImplementationSystem (3 + n) auxiliary_dir);
       New (5 + n) (TemplateLoader template_dir
                      ["html/interface"; "html/impl"; "html"; ""] ∅);
       New (6 + n) (GeneratorOptions (5 + n) webkit_database emitters
                      (1 + n) (Some n) html_output_dir);
       New (7 + n) (HtmlInterfacesSystem (6 + n) (4 + n));
       GeneratorGenerate generator webkit_database (7 + n) common_database
         _webkit_renames ],
     None).
Proof.
  intros Hx. unfold dispatch_plan. rewrite Hx. unfold html_plan.
  destruct (String.eqb system_name "htmlfrog"); reflexivity.
Qed.

Lemma dispatch_plan_assigns auxiliary_dir template_dir generator
    common_database webkit_database emitters dom_output_dir html_output_dir
    system_name n h :
  always assigns_fresh_implementation h
    (fst (dispatch_plan auxiliary_dir template_dir generator common_database
            webkit_database emitters dom_output_dir html_output_dir
            system_name n)).
Proof.
  unfold dispatch_plan, html_plan, plain_plan, interface_plan,
    CreateGeneratorOptions_plan, Generate'_plan.
  destruct (str_in system_name ["htmlfrog"; "htmldartium"]);
    [destruct (String.eqb system_name "htmlfrog")
    |destruct (String.eqb system_name "dummy");
     [|destruct (String.eqb system_name "frog")]];
    cbn [fst app];
    repeat (apply always_cons;
            [first [exact I
                   |split; [reflexivity|]; eexists _, _;
                    first [left; reflexivity | right; reflexivity]]|]);
    apply always_nil.
Qed.

(** C4.  Dispatching [htmlfrog] or [htmldartium] makes the calls listed
    below, in that order and nothing else, stopping early only if one of
    them raises.  The implementation generator is constructed first
    ([HtmlFrogSystem] for [htmlfrog], [NativeImplementationSystem] for
    [htmldartium]); the interfaces generator [HtmlInterfacesSystem] is
    constructed afterwards and receives the reference of that
    implementation generator as its second constructor argument.  No
    attribute of either is assigned: in a whole run of [Generate], every
    attribute assignment sets [_interface_system] on the plain implementation
    system that the call just before constructed. *)
Theorem html_dispatch_two_stage :
  (forall raises auxiliary_dir template_dir generator common_database
          webkit_database emitters dom_output_dir html_output_dir
          system_name w r w',
     str_in system_name ["htmlfrog"; "htmldartium"] = true ->
     dispatch raises auxiliary_dir template_dir generator common_database
       webkit_database emitters dom_output_dir html_output_dir system_name w
     = (r, w') ->
     let n := length (heap w) in
     let frog := String.eqb system_name "htmlfrog" in
     let calls :=
       [ New n (HtmlRenamer webkit_database);
         New (1 + n) (TypeRegistry webkit_database (Some n));
         New (2 + n)
           (TemplateLoader template_dir
              (if frog then ["html/frog"; "html/impl"; "html"; ""]
               else ["dom/native"; "html/dartium"; "html/impl"; ""])
              (if frog then {[ "DARTIUM" := false; "FROG" := true ]}
               else {[ "DARTIUM" := true; "FROG" := false ]}));
         New (3 + n) (GeneratorOptions (2 + n) webkit_database emitters
                        (1 + n) (Some n) html_output_dir);
         New (4 + n)
           (if frog then HtmlFrogSystem (3 + n)
            else NativeImplementationSystem (3 + n) auxiliary_dir);
         New (5 + n) (TemplateLoader template_dir
                        ["html/interface"; "html/impl"; "html"; ""] ∅);
         New (6 + n) (GeneratorOptions (5 + n) webkit_database emitters
                        (1 + n) (Some n) html_output_dir);
         New (7 + n) (HtmlInterfacesSystem (6 + n) (4 + n));
         GeneratorGenerate generator webkit_database (7 + n)
           common_database _webkit_renames ] in
     exists d,
       trace w' = trace w ++ d
       /\ d `prefix_of` calls
       /\ (r = Ok tt -> d = calls)
       /\ ((forall h ev, raises h ev = None) -> d = calls /\ r = Ok tt))
  /\ (forall raises current_dir system_names database_dir
             use_database_cache dom_output_dir html_output_dir w r w',
        Generate raises current_dir system_names database_dir
          use_database_cache dom_output_dir html_output_dir w = (r, w') ->
        exists d,
          trace w' = trace w ++ d
          /\ forall pre t a v post,
               d = pre ++ SetAttr t a v :: post ->
               a = "_interface_system"
               /\ exists pre' o,
                    pre = pre' ++ [New t (DummyImplementationSystem o)]
                    \/ pre = pre' ++ [New t (FrogSystem o)]).
Proof.
  split.
  - intros raises auxiliary_dir template_dir generator common_database
      webkit_database emitters dom_output_dir html_output_dir system_name
      w r w' Hx H n frog calls.
    destruct (dispatch_run _ _ _ _ _ _ _ _ _ _ _ _ _ H) as (d & Ht & Ho).
    rewrite dispatch_plan_html in Ho by assumption.
    cbn [fst snd] in Ho. fold n in Ho. fold frog in Ho. fold calls in Ho.
    exists d. split; [assumption|].
    split; [exact (Outcome_prefix _ _ _ _ _ _ Ho)|]. split.
    + intros ->. now destruct (Outcome_Ok _ _ _ _ _ Ho).
    + intros Hq. exact (Outcome_quiet _ _ _ _ _ _ Hq Ho).
  - intros raises current_dir system_names database_dir use_database_cache
      dom_output_dir html_output_dir w r w' H.
    assert (Hother : forall h ev,
              is_backend_call ev = false -> assigns_fresh_implementation h ev)
      by (intros h ev Hev; now destruct ev).
    destruct (Generate_always assigns_fresh_implementation
                dispatch_plan_assigns Hother _ _ _ _ _ _ _ _ _ _ H)
      as (d & Ht & Ha).
    exists d. split; [assumption|].
    intros pre t a v post Hd. exact (Ha [] pre _ post Hd).
Qed.

Lemma html_dispatch_two_stage_witness :
  let w' := snd (dispatch quiet "src" "templates" 0 1 2 3 "dom" "html"
                   "htmldartium" loop_world) in
  let calls :=
    [ New 4 (HtmlRenamer 2);
      New 5 (TypeRegistry 2 (Some 4));
      New 6 (TemplateLoader "templates"
               ["dom/native"; "html/dartium"; "html/impl"; ""]
               {[ "DARTIUM" := true; "FROG" := false ]});
      New 7 (GeneratorOptions 6 2 3 5 (Some 4) "html");
      New 8 (NativeImplementationSystem 7 "src");
      New 9 (TemplateLoader "templates"
               ["html/interface"; "html/impl"; "html"; ""] ∅);
      New 10 (GeneratorOptions 9 2 3 5 (Some 4) "html");
      New 11 (HtmlInterfacesSystem 10 8);
      GeneratorGenerate 0 2 11 1 _webkit_renames ] in
  exists d,
    trace w' = [] ++ d
    /\ d `prefix_of` calls
    /\ ((Ok tt : Result unit) = Ok tt -> d = calls)
    /\ ((forall h ev, quiet h ev = None) -> d = calls /\ Ok tt = Ok tt).
Proof.
  apply (proj1 html_dispatch_two_stage quiet "src" "templates" 0 1 2 3
           "dom" "html" "htmldartium" loop_world (Ok tt)).
  - reflexivity.
  - vm_compute. reflexivity.
Defined.

(** ** Condition flags *)

Lemma composed_with_last conditions options pre tl root paths db em tr ren
    out :
  composed_with conditions options
    ((pre ++ [New tl (TemplateLoader root paths conditions)])
     ++ [New options (GeneratorOptions tl db em tr ren out)]).
Proof.
  exists pre, tl, root, paths, db, em, tr, ren, out.
  now rewrite <- app_assoc.
Qed.

Lemma str_in_html system_name :
  str_in system_name ["htmlfrog"; "htmldartium"] = true ->
  String.eqb system_name "htmlfrog" = false ->
  system_name = "htmldartium".
Proof.
  unfold str_in. cbn [existsb]. intros H E. rewrite E in H.
  destruct (String.eqb system_name "htmldartium") eqn:E'; [|discriminate].
  now apply String.eqb_eq.
Qed.

Lemma dispatch_plan_conditions auxiliary_dir template_dir generator
    common_database webkit_database emitters dom_output_dir html_output_dir
    system_name n h :
  always (conditions_by_identifier system_name) h
    (fst (dispatch_plan auxiliary_dir template_dir generator common_database
            webkit_database emitters dom_output_dir html_output_dir
            system_name n)).
Proof.
  unfold dispatch_plan, html_plan, plain_plan, interface_plan,
    CreateGeneratorOptions_plan, Generate'_plan.
  destruct (str_in system_name ["htmlfrog"; "htmldartium"]) eqn:Hin;
    [destruct (String.eqb system_name "htmlfrog") eqn:Hfrog;
     [apply String.eqb_eq in Hfrog
     |pose proof (str_in_html _ Hin Hfrog) as Hdartium]
    |destruct (String.eqb system_name "dummy");
     [|destruct (String.eqb system_name "frog")]];
    cbn [fst app];
    repeat (apply always_cons;
            [first [exact I
                   |apply composed_with_last
                   |split; [assumption | apply composed_with_last]]|]);
    apply always_nil.
Qed.

(** C9.  In every run, each generator is constructed by the call that
    directly follows the two constructor calls of its own
    [CreateGeneratorOptions], and the condition flags given to that template
    loader depend only on the kind of generator: empty for every interfaces
    generator ([HtmlInterfacesSystem], [InterfacesSystem]) and every plain
    implementation generator ([DummyImplementationSystem], [FrogSystem]);
    [{'DARTIUM': False, 'FROG': True}] for [HtmlFrogSystem] and
    [{'DARTIUM': True, 'FROG': False}] for [NativeImplementationSystem].
    Within the dispatch of one identifier, an [HtmlFrogSystem] is constructed
    only for [htmlfrog] and a [NativeImplementationSystem] only for
    [htmldartium], so the flags are fixed by the identifier.  The two flag
    mappings are not empty. *)
Theorem conditions_fixed_by_identifier :
  (forall raises auxiliary_dir template_dir generator common_database
          webkit_database emitters dom_output_dir html_output_dir
          system_name w r w',
     dispatch raises auxiliary_dir template_dir generator common_database
       webkit_database emitters dom_output_dir html_output_dir system_name w
     = (r, w') ->
     exists d,
       trace w' = trace w ++ d
       /\ forall pre ev post,
            d = pre ++ ev :: post ->
            conditions_by_identifier system_name pre ev)
  /\ (forall raises current_dir system_names database_dir
             use_database_cache dom_output_dir html_output_dir w r w',
        Generate raises current_dir system_names database_dir
          use_database_cache dom_output_dir html_output_dir w = (r, w') ->
        exists d,
          trace w' = trace w ++ d
          /\ forall pre ev post,
               d = pre ++ ev :: post -> conditions_by_system pre ev)
  /\ frog_conditions = {[ "DARTIUM" := false; "FROG" := true ]}
  /\ dartium_conditions = {[ "DARTIUM" := true; "FROG" := false ]}
  /\ frog_conditions <> ∅
  /\ dartium_conditions <> ∅.
Proof.
  split; [|split].
  - intros raises auxiliary_dir template_dir generator common_database
      webkit_database emitters dom_output_dir html_output_dir system_name
      w r w' H.
    destruct (dispatch_run _ _ _ _ _ _ _ _ _ _ _ _ _ H) as (d & Ht & Ho).
    exists d. split; [assumption|].
    intros pre ev post Hd.
    pose proof (always_prefix _ [] _ _ (Outcome_prefix _ _ _ _ _ _ Ho)
                  (dispatch_plan_conditions _ _ _ _ _ _ _ _ _ _ _))
      as Ha.
    exact (Ha pre ev post Hd).
  - intros raises current_dir system_names database_dir use_database_cache
      dom_output_dir html_output_dir w r w' H.
    assert (Hd : forall auxiliary_dir template_dir generator common_database
                   webkit_database emitters dom_output_dir html_output_dir
                   x n h,
              always conditions_by_system h
                (fst (dispatch_plan auxiliary_dir template_dir generator
                        common_database webkit_database emitters
                        dom_output_dir html_output_dir x n))).
    { intros. eapply always_impl; [|apply dispatch_plan_conditions].
      intros h' ev. unfold conditions_by_identifier, conditions_by_system.
      destruct ev as [? []| | | | | | | | | | | | |]; try tauto. }
    assert (Hother : forall h ev,
              is_backend_call ev = false -> conditions_by_system h ev).
    { intros h ev Hev. destruct ev as [? []| | | | | | | | | | | | |];
        try exact I; discriminate. }
    destruct (Generate_always conditions_by_system Hd Hother
                _ _ _ _ _ _ _ _ _ _ H) as (d & Ht & Ha).
    exists d. split; [assumption|].
    intros pre ev post Hpre. exact (Ha [] pre ev post Hpre).
  - repeat split.
    + intros E. apply (f_equal (fun m => m !! "FROG")) in E.
      vm_compute in E. discriminate.
    + intros E. apply (f_equal (fun m => m !! "DARTIUM")) in E.
      vm_compute in E. discriminate.
Qed.

Lemma conditions_fixed_by_identifier_witness :
  let w' := snd (dispatch quiet "src" "templates" 0 1 2 3 "dom" "html"
                   "htmlfrog" loop_world) in
  exists d,
    trace w' = [] ++ d
    /\ forall pre ev post,
         d = pre ++ ev :: post -> conditions_by_identifier "htmlfrog" pre ev.
Proof.
  apply (proj1 conditions_fixed_by_identifier quiet "src" "templates"
           0 1 2 3 "dom" "html" "htmlfrog" loop_world (Ok tt)).
  vm_compute. reflexivity.
Defined.

(** ** Plain backends: one type registry per backend *)

Lemma since_registry_here tr pre db ren :
  since_registry tr (pre ++ [New tr (TypeRegistry db ren)]).
Proof. exists pre, db, ren, []. split; [reflexivity | constructor]. Qed.

Lemma since_registry_later tr h ev :
  is_registry ev = false /\ is_generate ev = false ->
  since_registry tr h -> since_registry tr (h ++ [ev]).
Proof.
  intros Hev (pre & db & ren & since & -> & Hs).
  exists pre, db, ren, (since ++ [ev]). split.
  - now rewrite <- app_assoc.
  - apply Forall_app. split; [assumption | now constructor].
Qed.

Lemma dispatch_plan_registry auxiliary_dir template_dir generator
    common_database webkit_database emitters dom_output_dir html_output_dir
    system_name n h :
  always uses_current_registry h
    (fst (dispatch_plan auxiliary_dir template_dir generator common_database
            webkit_database emitters dom_output_dir html_output_dir
            system_name n)).
Proof.
  unfold dispatch_plan, html_plan, plain_plan, interface_plan,
    CreateGeneratorOptions_plan, Generate'_plan.
  destruct (str_in system_name ["htmlfrog"; "htmldartium"]);
    [destruct (String.eqb system_name "htmlfrog")
    |destruct (String.eqb system_name "dummy");
     [|destruct (String.eqb system_name "frog")]];
    cbn [fst app];
    repeat (apply always_cons;
            [first [exact I
                   |repeat first
                      [apply since_registry_here
                      |apply since_registry_later;
                       [split; reflexivity|]]]|]);
    apply always_nil.
Qed.

Lemma dispatch_plan_plain auxiliary_dir template_dir generator
    common_database webkit_database emitters dom_output_dir html_output_dir
    system_name n :
  system_name = "dummy" \/ system_name = "frog" ->
  dispatch_plan auxiliary_dir template_dir generator common_database
    webkit_database emitters dom_output_dir html_output_dir system_name n
  = ([ New n (TypeRegistry webkit_database None);
       New (1 + n) (TemplateLoader template_dir
                      ["dom/interface"; "dom"; ""] ∅);
       New (2 + n) (GeneratorOptions (1 + n) webkit_database emitters n
                      None dom_output_dir);
       New (3 + n) (InterfacesSystem (2 + n));
       New (4 + n)
         (TemplateLoader template_dir
            (if String.eqb system_name "dummy"
             then ["dom/dummy"; "dom"; ""] else ["dom/frog"; "dom"; ""]) ∅);
       New (5 + n) (GeneratorOptions (4 + n) webkit_database emitters n
                      None dom_output_dir);
       New (6 + n)
         (if String.eqb system_name "dummy"
          then DummyImplementationSystem (5 + n) else FrogSystem (5 + n));
       SetAttr (6 + n) "_interface_system" (3 + n);
       GeneratorGenerate generator webkit_database (3 + n) common_database
         _webkit_renames;
       GeneratorGenerate generator webkit_database (6 + n) common_database
         _webkit_renames ],
     None).
Proof. intros [-> | ->]; reflexivity. Qed.

(** ** Fresh references *)

Lemma numbered_app n a b :
  numbered n (a ++ b) <-> numbered n a /\ numbered (allocs a + n) b.
Proof.
  revert n. induction a as [|ev a IH]; intros n; cbn [app].
  - cbn. tauto.
  - destruct ev; cbn [numbered allocs]; rewrite IH;
      rewrite ?Nat.add_succ_r; cbn [Nat.add]; tauto.
Qed.

Lemma numbered_prefix n d l : d `prefix_of` l -> numbered n l -> numbered n d.
Proof. intros [k ->] H. now apply numbered_app in H. Qed.

(** The reference of a constructor call is the number of objects that
    existed before it. *)
Lemma numbered_at n pre r o post :
  numbered n (pre ++ New r o :: post) -> r = allocs pre + n.
Proof. intros H. apply numbered_app in H as [_ [H _]]. exact H. Qed.

Lemma dispatch_plan_numbered auxiliary_dir template_dir generator
    common_database webkit_database emitters dom_output_dir html_output_dir
    system_name n :
  numbered n
    (fst (dispatch_plan auxiliary_dir template_dir generator common_database
            webkit_database emitters dom_output_dir html_output_dir
            system_name n)).
Proof.
  unfold dispatch_plan, html_plan, plain_plan, interface_plan,
    CreateGeneratorOptions_plan, Generate'_plan.
  destruct (str_in system_name ["htmlfrog"; "htmldartium"]);
    [destruct (String.eqb system_name "htmlfrog")
    |destruct (String.eqb system_name "dummy");
     [|destruct (String.eqb system_name "frog")]];
    cbn [fst app numbered]; repeat split.
Qed.

Lemma loop_plan_numbered auxiliary_dir template_dir generator
    common_database webkit_database emitters dom_output_dir html_output_dir
    system_names n :
  numbered n
    (fst (loop_plan auxiliary_dir template_dir generator common_database
            webkit_database emitters dom_output_dir html_output_dir
            system_names n)).
Proof.
  revert n. induction system_names as [|x l IH]; intros n; [exact I|].
  cbn [loop_plan]. unfold then_plan.
  pose proof (dispatch_plan_numbered auxiliary_dir template_dir generator
                common_database webkit_database emitters dom_output_dir
                html_output_dir x n) as Hx.
  destruct (dispatch_plan _ _ _ _ _ _ _ _ x n) as [evs [e|]];
    cbn [fst snd] in *; [assumption|].
  apply numbered_app. split; [assumption | apply IH].
Qed.

(** In every run, each constructor call allocates the next reference: the
    reference it returns is the number of objects that existed before. *)
Lemma Generate_numbered raises current_dir system_names database_dir
    use_database_cache dom_output_dir html_output_dir w r w' :
  Generate raises current_dir system_names database_dir use_database_cache
    dom_output_dir html_output_dir w = (r, w') ->
  exists d, trace w' = trace w ++ d /\ numbered (length (heap w)) d.
Proof.
  intros H.
  destruct (Generate_run _ _ _ _ _ _ _ _ _ _ H) as (d & Ht & Ho).
  exists d. split; [assumption|].
  eapply numbered_prefix; [exact (Outcome_prefix _ _ _ _ _ _ Ho)|].
  cbn zeta. set (n := length (heap w)).
  apply numbered_app. split.
  - unfold body_plan. apply numbered_app. split.
    + unfold stages_plan. destruct use_database_cache;
        cbn [numbered]; repeat split.
    + assert (Ha : allocs (stages_plan current_dir database_dir
                             use_database_cache n) = 3)
        by (destruct use_database_cache; reflexivity).
      rewrite Ha. cbn [numbered]. split; [reflexivity|].
      apply loop_plan_numbered.
  - destruct (snd _); cbn [numbered]; exact I.
Qed.

(** Two occurrences in one list: the same one, or one before the other. *)
Lemma occurrences {A} (a a' b b' : list A) x x' :
  a ++ x :: b = a' ++ x' :: b' ->
  (a = a' /\ x = x' /\ b = b')
  \/ (exists m, a' = a ++ x :: m /\ b = m ++ x' :: b')
  \/ (exists m, a = a' ++ x' :: m /\ b' = m ++ x :: b).
Proof.
  revert a'. induction a as [|y a IH]; intros a' H.
  - destruct a' as [|y' a']; cbn [app] in H; injection H as -> ->.
    + now left.
    + right. left. now exists a'.
  - destruct a' as [|y' a']; cbn [app] in H; injection H as -> H.
    + right. right. now exists a.
    + destruct (IH _ H) as [(-> & -> & ->) | [(m & -> & ->) | (m & -> & ->)]].
      * now left.
      * right. left. now exists m.
      * right. right. now exists m.
Qed.

(** Generator options built on either side of a generator run use
    different type registries. *)
Lemma registries_not_shared n d pre o1 tl1 db1 em1 tr1 ren1 out1 mid
    o2 tl2 db2 em2 tr2 ren2 out2 post :
  numbered n d ->
  always uses_current_registry [] d ->
  d = pre ++ New o1 (GeneratorOptions tl1 db1 em1 tr1 ren1 out1)
          :: mid ++ New o2 (GeneratorOptions tl2 db2 em2 tr2 ren2 out2)
          :: post ->
  Exists (fun ev => is_generate ev = true) mid ->
  tr1 <> tr2.
Proof.
  intros Hn Ha Hd Hmid Heq. subst tr2.
  set (c1 := New o1 (GeneratorOptions tl1 db1 em1 tr1 ren1 out1)) in *.
  set (c2 := New o2 (GeneratorOptions tl2 db2 em2 tr1 ren2 out2)) in *.
  pose proof (Ha pre _ _ Hd) as (p1 & dba & rena & s1 & Hp1 & Hs1).
  assert (Hd' : d = (pre ++ c1 :: mid) ++ c2 :: post)
    by (rewrite Hd, <- app_assoc; reflexivity).
  pose proof (Ha _ _ _ Hd') as (p2 & dbb & renb & s2 & Hp2 & Hs2).
  cbn [app] in Hp1, Hp2.
  assert (E1 : d = p1 ++ New tr1 (TypeRegistry dba rena)
                     :: (s1 ++ c1 :: mid ++ c2 :: post))
    by (rewrite Hd, Hp1, <- app_assoc; reflexivity).
  assert (E2 : d = p2 ++ New tr1 (TypeRegistry dbb renb)
                     :: (s2 ++ c2 :: post))
    by (rewrite Hd', Hp2, <- app_assoc; reflexivity).
  assert (Hr1 : tr1 = allocs p1 + n)
    by (eapply numbered_at; rewrite <- E1; exact Hn).
  assert (Hr2 : tr1 = allocs p2 + n)
    by (eapply numbered_at; rewrite <- E2; exact Hn).
  assert (Hallocs : forall (p m : list Event) x,
            allocs (p ++ New tr1 x :: m) = allocs p + S (allocs m)).
  { intros p m x. induction p as [|[] p IH]; cbn [app allocs] in *; lia. }
  rewrite E1 in E2.
  destruct (occurrences _ _ _ _ _ _ E2)
    as [(_ & _ & Hs) | [(m & Hm & _) | (m & Hm & _)]].
  - assert (Hs' : s2 = s1 ++ c1 :: mid).
    { rewrite app_comm_cons, app_assoc in Hs.
      now apply app_inv_tail in Hs. }
    rewrite Hs' in Hs2. apply Forall_app in Hs2 as [_ Hs2].
    apply Forall_cons in Hs2 as [_ Hs2].
    apply Exists_exists in Hmid as (ev & Hin & Hev).
    rewrite Forall_forall in Hs2. destruct (Hs2 ev Hin) as [_ Hev'].
    congruence.
  - rewrite Hm, Hallocs in Hr2. lia.
  - rewrite Hm, Hallocs in Hr1. lia.
Qed.

(** C7.  Dispatching [dummy] or [frog] makes the calls listed below, in that
    order and nothing else, stopping early only if one of them raises.  It
    first constructs a type registry, an object that did not exist when the
    dispatch began (its reference is the size of the heap at that moment),
    so it differs from the registry of every backend dispatched earlier.
    The generator options of the interfaces generator and of the
    implementation generator are both built with that registry.  The
    implementation generator's [_interface_system] attribute is set to the
    interfaces generator before either generator is run.

    In a whole run, every generator options object is built with the type
    registry constructed most recently, and no generator has run since that
    registry was constructed.  As every dispatch ends with its generator
    runs, no registry is used by two backends: generator options built on
    either side of a generator run never have the same type registry. *)
Theorem plain_dispatch_shares_registry :
  (forall raises auxiliary_dir template_dir generator common_database
          webkit_database emitters dom_output_dir html_output_dir
          system_name w r w',
     system_name = "dummy" \/ system_name = "frog" ->
     dispatch raises auxiliary_dir template_dir generator common_database
       webkit_database emitters dom_output_dir html_output_dir system_name w
     = (r, w') ->
     let n := length (heap w) in
     let dummy := String.eqb system_name "dummy" in
     let calls :=
       [ New n (TypeRegistry webkit_database None);
         New (1 + n) (TemplateLoader template_dir
                        ["dom/interface"; "dom"; ""] ∅);
         New (2 + n) (GeneratorOptions (1 + n) webkit_database emitters n
                        None dom_output_dir);
         New (3 + n) (InterfacesSystem (2 + n));
         New (4 + n)
           (TemplateLoader template_dir
              (if dummy then ["dom/dummy"; "dom"; ""]
               else ["dom/frog"; "dom"; ""]) ∅);
         New (5 + n) (GeneratorOptions (4 + n) webkit_database emitters n
                        None dom_output_dir);
         New (6 + n)
           (if dummy then DummyImplementationSystem (5 + n)
            else FrogSystem (5 + n));
         SetAttr (6 + n) "_interface_system" (3 + n);
         GeneratorGenerate generator webkit_database (3 + n)
           common_database _webkit_renames;
         GeneratorGenerate generator webkit_database (6 + n)
           common_database _webkit_renames ] in
     heap w !! n = None
     /\ exists d,
          trace w' = trace w ++ d
          /\ d `prefix_of` calls
          /\ (r = Ok tt -> d = calls)
          /\ ((forall h ev, raises h ev = None) -> d = calls /\ r = Ok tt))
  /\ (forall raises current_dir system_names database_dir
             use_database_cache dom_output_dir html_output_dir w r w',
        Generate raises current_dir system_names database_dir
          use_database_cache dom_output_dir html_output_dir w = (r, w') ->
        exists d,
          trace w' = trace w ++ d
          /\ (forall pre o tl db em tr ren out post,
                d = pre ++ New o (GeneratorOptions tl db em tr ren out)
                             :: post ->
                exists pre' db' ren' since,
                  pre = pre' ++ New tr (TypeRegistry db' ren') :: since
                  /\ Forall (fun ev => is_registry ev = false
                                       /\ is_generate ev = false) since)
          /\ (forall pre o1 tl1 db1 em1 tr1 ren1 out1 mid
                     o2 tl2 db2 em2 tr2 ren2 out2 post,
                d = pre
                    ++ New o1 (GeneratorOptions tl1 db1 em1 tr1 ren1 out1)
                    :: mid
                    ++ New o2 (GeneratorOptions tl2 db2 em2 tr2 ren2 out2)
                    :: post ->
                Exists (fun ev => is_generate ev = true) mid ->
                tr1 <> tr2)).
Proof.
  split.
  - intros raises auxiliary_dir template_dir generator common_database
      webkit_database emitters dom_output_dir html_output_dir system_name
      w r w' Hx H n dummy calls.
    split; [now apply lookup_ge_None_2|].
    destruct (dispatch_run _ _ _ _ _ _ _ _ _ _ _ _ _ H) as (d & Ht & Ho).
    rewrite dispatch_plan_plain in Ho by assumption.
    cbn [fst snd] in Ho. fold n in Ho. fold dummy in Ho. fold calls in Ho.
    exists d. split; [assumption|].
    split; [exact (Outcome_prefix _ _ _ _ _ _ Ho)|]. split.
    + intros ->. now destruct (Outcome_Ok _ _ _ _ _ Ho).
    + intros Hq. exact (Outcome_quiet _ _ _ _ _ _ Hq Ho).
  - intros raises current_dir system_names database_dir use_database_cache
      dom_output_dir html_output_dir w r w' H.
    assert (Hother : forall h ev,
              is_backend_call ev = false -> uses_current_registry h ev).
    { intros h ev Hev. destruct ev as [? []| | | | | | | | | | | | |];
        try exact I; discriminate. }
    destruct (Generate_always uses_current_registry dispatch_plan_registry
                Hother _ _ _ _ _ _ _ _ _ _ H) as (d & Ht & Ha).
    destruct (Generate_numbered _ _ _ _ _ _ _ _ _ _ H) as (d' & Ht' & Hn).
    rewrite Ht in Ht'. apply app_inv_head in Ht'. subst d'.
    exists d. split; [assumption|]. split.
    + intros pre o tl db em tr ren out post Hd.
      exact (Ha [] pre _ post Hd).
    + intros pre o1 tl1 db1 em1 tr1 ren1 out1 mid
        o2 tl2 db2 em2 tr2 ren2 out2 post Hd Hmid.
      exact (registries_not_shared _ _ _ _ _ _ _ _ _ _ _ _ _ _ _ _ _ _ _
               Hn (Ha []) Hd Hmid).
Qed.

Lemma plain_dispatch_shares_registry_witness :
  let w' := snd (dispatch quiet "src" "templates" 0 1 2 3 "dom" "html"
                   "frog" loop_world) in
  let calls :=
    [ New 4 (TypeRegistry 2 None);
      New 5 (TemplateLoader "templates" ["dom/interface"; "dom"; ""] ∅);
      New 6 (GeneratorOptions 5 2 3 4 None "dom");
      New 7 (InterfacesSystem 6);
      New 8 (TemplateLoader "templates" ["dom/frog"; "dom"; ""] ∅);
      New 9 (GeneratorOptions 8 2 3 4 None "dom");
      New 10 (FrogSystem 9);
      SetAttr 10 "_interface_system" 7;
      GeneratorGenerate 0 2 7 1 _webkit_renames;
      GeneratorGenerate 0 2 10 1 _webkit_renames ] in
  heap loop_world !! 4 = None
  /\ exists d,
       trace w' = [] ++ d
       /\ d `prefix_of` calls
       /\ ((Ok tt : Result unit) = Ok tt -> d = calls)
       /\ ((forall h ev, quiet h ev = None) -> d = calls /\ Ok tt = Ok tt).
Proof.
  apply (proj1 plain_dispatch_shares_registry quiet "src" "templates"
           0 1 2 3 "dom" "html" "frog" loop_world (Ok tt)).
  - now right.
  - vm_compute. reflexivity.
Defined.

(** After a completed [frog] dispatch the heap holds the two generator
    options with the same type registry, and the implementation system
    carries the back-reference. *)
Example frog_dispatch_heap :
  drop 4 (heap (snd (dispatch quiet "src" "templates" 0 1 2 3 "dom" "html"
                       "frog" loop_world)))
  = [ mkCell (TypeRegistry 2 None) ∅;
      mkCell (TemplateLoader "templates" ["dom/interface"; "dom"; ""] ∅) ∅;
      mkCell (GeneratorOptions 5 2 3 4 None "dom") ∅;
      mkCell (InterfacesSystem 6) ∅;
      mkCell (TemplateLoader "templates" ["dom/frog"; "dom"; ""] ∅) ∅;
      mkCell (GeneratorOptions 8 2 3 4 None "dom") ∅;
      mkCell (FrogSystem 9) {[ "_interface_system" := 7 ]} ].
Proof. vm_compute. reflexivity. Qed.

(** ** Composing configurations *)

Lemma made_at_effect h r o ev :
  made_at h r = Some o -> made_at (effect ev h) r = Some o.
Proof.
  unfold made_at. intros H.
  destruct (h !! r) as [c|] eqn:E; [|discriminate].
  destruct ev; cbn [effect]; try (rewrite E; exact H).
  - rewrite lookup_app_l by (eapply lookup_lt_Some; eassumption).
    rewrite E. exact H.
  - destruct (h !! target) as [c'|] eqn:E'; [|rewrite E; exact H].
    destruct (decide (target = r)) as [->|Hne].
    + rewrite list_lookup_insert_eq
        by (eapply lookup_lt_Some; eassumption).
      rewrite E in E'. injection E' as <-. exact H.
    + rewrite list_lookup_insert_ne by assumption. rewrite E. exact H.
Qed.

Lemma made_at_later evs h r o :
  made_at h r = Some o -> made_at (later evs h) r = Some o.
Proof.
  revert h. induction evs as [|ev evs IH]; intros h H; [exact H|].
  apply IH, made_at_effect, H.
Qed.

Lemma lookup_order_later evs h options paths :
  lookup_order h options = Some paths ->
  lookup_order (later evs h) options = Some paths.
Proof.
  unfold lookup_order. intros H.
  destruct (made_at h options) as [[]|] eqn:E; try discriminate.
  rewrite (made_at_later _ _ _ _ E).
  destruct (made_at h templates) as [[]|] eqn:E'; try discriminate.
  now rewrite (made_at_later _ _ _ _ E').
Qed.

Lemma new_spec raises o w :
  new raises o w
  = match raises (trace w) (New (length (heap w)) o) with
    | Some detail =>
        (Raise (CollaboratorError (New (length (heap w)) o) detail),
         mkWorld (trace w ++ [New (length (heap w)) o]) (heap w))
    | None =>
        (Ok (length (heap w)),
         mkWorld (trace w ++ [New (length (heap w)) o])
           (heap w ++ [mkCell o ∅]))
    end.
Proof.
  unfold new, bind, perform, ret.
  destruct (raises (trace w) (New (length (heap w)) o)); reflexivity.
Qed.

Section Compose.

Variables (template_dir : string) (webkit_database emitters : ref).
Variables (template_paths : list string) (conditions : gmap string bool).
Variables (type_registry : ref) (output_dir : string) (renamer : option ref).

(** What one successful call of [CreateGeneratorOptions] does. *)
Lemma CreateGeneratorOptions_Ok raises w options w' :
  CreateGeneratorOptions raises template_dir webkit_database emitters
    template_paths conditions type_registry output_dir renamer w
  = (Ok options, w') ->
  let n := length (heap w) in
  options = 1 + n
  /\ trace w'
     = trace w
       ++ [ New n (TemplateLoader template_dir template_paths conditions);
            New (1 + n) (GeneratorOptions n webkit_database emitters
                           type_registry renamer output_dir) ]
  /\ heap w'
     = heap w
       ++ [ mkCell (TemplateLoader template_dir template_paths conditions) ∅;
            mkCell (GeneratorOptions n webkit_database emitters
                      type_registry renamer output_dir) ∅ ].
Proof.
  unfold CreateGeneratorOptions, bind. rewrite new_spec.
  destruct (raises (trace w) _); [discriminate|].
  rewrite new_spec. cbn [trace heap].
  rewrite length_app, Nat.add_comm. cbn [length Nat.add].
  destruct (raises _ _); [discriminate|].
  intros H. injection H as <- <-. cbn [trace heap].
  rewrite <- !app_assoc. repeat split.
Qed.

Lemma CreateGeneratorOptions_lookup_order raises w options w' :
  CreateGeneratorOptions raises template_dir webkit_database emitters
    template_paths conditions type_registry output_dir renamer w
  = (Ok options, w') ->
  lookup_order (heap w') options = Some template_paths.
Proof.
  intros H. destruct (CreateGeneratorOptions_Ok _ _ _ _ H) as (-> & _ & ->).
  unfold lookup_order, made_at.
  rewrite lookup_app_r by lia.
  replace (1 + length (heap w) - length (heap w)) with 1 by lia.
  cbn [lookup list_lookup fmap option_fmap option_map made].
  rewrite lookup_app_r by lia. rewrite Nat.sub_diag. reflexivity.
Qed.

End Compose.

(** C8.  A call of [CreateGeneratorOptions] that returns makes exactly two
    constructor calls and adds exactly their two objects to the heap; every
    object that existed before, its arguments included, is left as it was.
    The configuration it returns has the given template paths as its lookup
    order, and keeps it whatever calls are made afterwards.  Hence two calls
    with identical arguments yield configurations with identical lookup
    order, from whatever worlds they are made (whatever was composed before
    or between them), under whatever collaborators, and whatever happens
    after each.  With collaborators that do not raise the call does
    return. *)
Theorem CreateGeneratorOptions_deterministic :
  (forall raises template_dir webkit_database emitters template_paths
          conditions type_registry output_dir renamer w options w',
     CreateGeneratorOptions raises template_dir webkit_database emitters
       template_paths conditions type_registry output_dir renamer w
     = (Ok options, w') ->
     let n := length (heap w) in
     trace w'
     = trace w
       ++ [ New n (TemplateLoader template_dir template_paths conditions);
            New (1 + n) (GeneratorOptions n webkit_database emitters
                           type_registry renamer output_dir) ]
     /\ heap w'
        = heap w
          ++ [ mkCell (TemplateLoader template_dir template_paths conditions)
                 ∅;
               mkCell (GeneratorOptions n webkit_database emitters
                         type_registry renamer output_dir) ∅ ]
     /\ (forall r, r < n -> heap w' !! r = heap w !! r)
     /\ forall evs,
          lookup_order (later evs (heap w')) options = Some template_paths)
  /\ (forall raises1 raises2 template_dir webkit_database emitters
             template_paths conditions type_registry output_dir renamer
             w1 options1 w1' w2 options2 w2' evs1 evs2,
        CreateGeneratorOptions raises1 template_dir webkit_database emitters
          template_paths conditions type_registry output_dir renamer w1
        = (Ok options1, w1') ->
        CreateGeneratorOptions raises2 template_dir webkit_database emitters
          template_paths conditions type_registry output_dir renamer w2
        = (Ok options2, w2') ->
        lookup_order (later evs1 (heap w1')) options1
        = lookup_order (later evs2 (heap w2')) options2)
  /\ (forall raises template_dir webkit_database emitters template_paths
             conditions type_registry output_dir renamer w,
        (forall h ev, raises h ev = None) ->
        exists options w',
          CreateGeneratorOptions raises template_dir webkit_database
            emitters template_paths conditions type_registry output_dir
            renamer w
          = (Ok options, w')).
Proof.
  split; [|split].
  - intros raises template_dir webkit_database emitters template_paths
      conditions type_registry output_dir renamer w options w' H n.
    destruct (CreateGeneratorOptions_Ok _ _ _ _ _ _ _ _ _ _ _ _ H)
      as (_ & Ht & Hh).
    split; [assumption|]. split; [assumption|]. split.
    + intros r Hr. rewrite Hh. now apply lookup_app_l.
    + intros evs. apply lookup_order_later.
      eapply CreateGeneratorOptions_lookup_order, H.
  - intros raises1 raises2 template_dir webkit_database emitters
      template_paths conditions type_registry output_dir renamer
      w1 options1 w1' w2 options2 w2' evs1 evs2 H1 H2.
    rewrite (lookup_order_later evs1 _ _ _
               (CreateGeneratorOptions_lookup_order _ _ _ _ _ _ _ _ _ _ _ _
                  H1)).
    rewrite (lookup_order_later evs2 _ _ _
               (CreateGeneratorOptions_lookup_order _ _ _ _ _ _ _ _ _ _ _ _
                  H2)).
    reflexivity.
  - intros raises template_dir webkit_database emitters template_paths
      conditions type_registry output_dir renamer w Hq.
    unfold CreateGeneratorOptions, bind.
    rewrite new_spec, Hq, new_spec, Hq. eauto.
Qed.

Lemma CreateGeneratorOptions_deterministic_witness :
  let compose :=
    CreateGeneratorOptions quiet "templates" 2 3 ["dom/dummy"; "dom"; ""] ∅
      4 "dom" None in
  let w1' := snd (compose loop_world) in
  let w2 := snd (dispatch quiet "src" "templates" 0 1 2 3 "dom" "html"
                   "htmlfrog" w1') in
  let w2' := snd (compose w2) in
  lookup_order (later [SetAttr 5 "_interface_system" 4] (heap w1')) 5
  = lookup_order (later [] (heap w2')) 15.
Proof.
  intros compose w1' w2 w2'.
  apply (proj1 (proj2 CreateGeneratorOptions_deterministic) quiet quiet
           "templates" 2 3 ["dom/dummy"; "dom"; ""] ∅ 4 "dom" None
           loop_world 5 w1' w2 15 w2').
  - vm_compute. reflexivity.
  - vm_compute. reflexivity.
Defined.

(** ** The output directories of [main] *)

Lemma append_inv_head (p a b : string) : p +:+ a = p +:+ b -> a = b.
Proof.
  induction p as [|c p IH]; cbn [String.append]; intros H; [exact H|].
  injection H as H. now apply IH.
Qed.

Lemma default_dirs_distinct current_dir :
  path_join current_dir ["../generated"]
  <> path_join current_dir ["../../html/generated"].
Proof.
  unfold path_join. cbn [fold_left]. unfold join2.
  cbn [starts_with_slash Ascii.eqb Bool.eqb].
  destruct (String.eqb current_dir "" || ends_with_slash current_dir);
    intros H; apply append_inv_head in H; discriminate.
Qed.

(** C10, as the code has it.  When [--output-dir] is given a non-empty
    value, the dom output directory and the html output directory are both
    that value.  When it is absent, or given as the empty string (which
    [or] treats like [None]), they are the two defaults
    [current_dir/../generated] and [current_dir/../../html/generated], which
    differ.  These are the directories [main] passes to [Generate]. *)
Theorem output_dir_override :
  (forall current_dir systems d use_database_cache,
     d <> "" ->
     dom_output_dir current_dir
       (mkOptions systems (Some d) use_database_cache) = d
     /\ html_output_dir current_dir
          (mkOptions systems (Some d) use_database_cache) = d)
  /\ (forall current_dir systems o use_database_cache,
        o = None \/ o = Some "" ->
        let options := mkOptions systems o use_database_cache in
        dom_output_dir current_dir options
        = path_join current_dir ["../generated"]
        /\ html_output_dir current_dir options
           = path_join current_dir ["../../html/generated"]
        /\ dom_output_dir current_dir options
           <> html_output_dir current_dir options)
  /\ (forall raises current_dir options w,
        main raises current_dir options w
        = (perform raises (FileConfig (path_join current_dir ["logging.conf"])) ;;
           Generate raises current_dir (split_comma (systems options))
             (path_join current_dir [".."; "database"])
             (use_database_cache options)
             (dom_output_dir current_dir options)
             (html_output_dir current_dir options) ;;
           GenerateSingleFile raises (split_comma (systems options))) w).
Proof.
  split; [|split].
  - intros current_dir systems d use_database_cache Hd.
    unfold dom_output_dir, html_output_dir. cbn [output_dir py_or].
    destruct d; [contradiction | now split].
  - intros current_dir systems o use_database_cache Ho options.
    assert (Hdom : dom_output_dir current_dir options
                   = path_join current_dir ["../generated"])
      by (destruct Ho as [-> | ->]; reflexivity).
    assert (Hhtml : html_output_dir current_dir options
                    = path_join current_dir ["../../html/generated"])
      by (destruct Ho as [-> | ->]; reflexivity).
    split; [assumption|]. split; [assumption|].
    rewrite Hdom, Hhtml. apply default_dirs_distinct.
  - reflexivity.
Qed.

Lemma output_dir_override_witness :
  (dom_output_dir "scripts" (mkOptions "frog" (Some "out") false) = "out"
   /\ html_output_dir "scripts" (mkOptions "frog" (Some "out") false) = "out")
  /\ (dom_output_dir "scripts" default_options = "scripts/../generated"
      /\ html_output_dir "scripts" default_options
         = "scripts/../../html/generated"
      /\ dom_output_dir "scripts" default_options
         <> html_output_dir "scripts" default_options).
Proof.
  split.
  - apply (proj1 output_dir_override "scripts" "frog" "out" false).
    discriminate.
  - apply (proj1 (proj2 output_dir_override) "scripts"
             "frog,dummy,htmlfrog,htmldartium" None false).
    now left.
Defined.

(** The claim as the spec states it fails: [--output-dir] supplied with the
    empty string does not collapse the two directories into the supplied
    one; the two distinct defaults are used. *)
Lemma empty_output_dir_not_collapsed :
  let options := mkOptions "dummy" (Some "") false in
  dom_output_dir "scripts" options = "scripts/../generated"
  /\ html_output_dir "scripts" options = "scripts/../../html/generated"
  /\ dom_output_dir "scripts" options <> ""
  /\ dom_output_dir "scripts" options <> html_output_dir "scripts" options.
Proof. repeat split; discriminate. Qed.

(** * Further properties of the driver *)

(** ** [GenerateSingleFile] *)

Section Copies.

Variable raises : Collaborators.

Lemma perform_planned ev :
  planned raises (perform raises ev) (fun _ => ([ev], None)).
Proof. intros w. apply step_last. Qed.

Lemma planned_ext m p p' :
  (forall n, p n = p' n) -> planned raises m p -> planned raises m p'.
Proof. intros E H w. rewrite <- E. apply H. Qed.

Lemma copy_planned systems system_name log command :
  planned raises
    (if str_in system_name systems then
       perform raises (LoggerInfo log) ;;
       perform raises (SubprocessCall [command] true)
     else ret tt)
    (fun _ => (copy_plan systems system_name log command, None)).
Proof.
  unfold copy_plan. destruct (str_in system_name systems); intros w.
  - eapply step_perform; [reflexivity | | reflexivity].
    intros w1 _. apply step_last.
  - reflexivity.
Qed.

Lemma GenerateSingleFile_planned systems :
  planned raises (GenerateSingleFile raises systems)
    (fun _ => (GenerateSingleFile_plan systems, None)).
Proof.
  unfold GenerateSingleFile.
  eapply planned_ext;
    [|apply planned_then; [apply copy_planned|];
      apply planned_then; [apply copy_planned|];
      apply planned_then; [apply copy_planned|];
      apply copy_planned].
  intros n. reflexivity.
Qed.

Lemma main_planned current_dir options :
  planned raises (main raises current_dir options)
    (main_plan current_dir options).
Proof.
  unfold main. cbn zeta.
  eapply planned_ext;
    [|apply planned_then; [apply perform_planned|];
      apply planned_then; [apply Generate_planned|];
      apply GenerateSingleFile_planned].
  intros n. unfold main_plan, then_plan. cbn [fst snd allocs Nat.add app].
  destruct (snd (Generate_plan _ _ _ _ _ _ n)) eqn:E; cbn [fst snd].
  - now rewrite app_nil_r, E.
  - reflexivity.
Qed.

End Copies.

Lemma str_in_In x (l : list string) : str_in x l = true <-> In x l.
Proof.
  unfold str_in. rewrite existsb_exists. split.
  - intros (y & Hy & E). apply String.eqb_eq in E. now subst.
  - intros H. exists x. split; [assumption | apply String.eqb_refl].
Qed.

Lemma str_in_ext x (l1 l2 : list string) :
  (In x l1 <-> In x l2) -> str_in x l1 = str_in x l2.
Proof.
  intros H. destruct (str_in x l1) eqn:E1, (str_in x l2) eqn:E2;
    try reflexivity.
  - apply str_in_In, H, str_in_In in E1. congruence.
  - apply str_in_In, H, str_in_In in E2. congruence.
Qed.

(** What [GenerateSingleFile] does depends only on which of the four
    supported identifiers occur in [systems]: their order, their repetitions
    and any other identifier in the list make no difference, whatever the
    collaborators do. *)
Theorem GenerateSingleFile_membership raises (systems1 systems2 : list string)
    w :
  (forall x, supported x = true -> (In x systems1 <-> In x systems2)) ->
  GenerateSingleFile raises systems1 w = GenerateSingleFile raises systems2 w.
Proof.
  intros H. unfold GenerateSingleFile.
  rewrite (str_in_ext "frog" systems1 systems2) by now apply H.
  rewrite (str_in_ext "htmlfrog" systems1 systems2) by now apply H.
  rewrite (str_in_ext "htmldartium" systems1 systems2) by now apply H.
  rewrite (str_in_ext "dummy" systems1 systems2) by now apply H.
  reflexivity.
Qed.

Lemma GenerateSingleFile_membership_witness :
  GenerateSingleFile quiet ["dummy"; "frog"] world0
  = GenerateSingleFile quiet ["frog"; "bogus"; "dummy"; "frog"] world0.
Proof.
  apply (GenerateSingleFile_membership quiet ["dummy"; "frog"]
           ["frog"; "bogus"; "dummy"; "frog"] world0).
  intros x Hx. unfold supported, str_in in Hx. cbn [existsb] in Hx.
  destruct (String.eqb x "htmlfrog") eqn:E1;
    [apply String.eqb_eq in E1; subst; simpl; intuition discriminate|].
  destruct (String.eqb x "htmldartium") eqn:E2;
    [apply String.eqb_eq in E2; subst; simpl; intuition discriminate|].
  destruct (String.eqb x "dummy") eqn:E3;
    [apply String.eqb_eq in E3; subst; simpl; intuition|].
  destruct (String.eqb x "frog") eqn:E4; [|discriminate].
  apply String.eqb_eq in E4; subst; simpl; intuition.
Defined.

(** Calls that neither construct an object nor assign an attribute leave
    the heap as it is. *)
Lemma exec_events_heap raises evs w r w' :
  Forall (fun ev => match ev with
                    | New _ _ | SetAttr _ _ _ => False
                    | _ => True
                    end) evs ->
  exec_events raises evs w = (r, w') -> heap w' = heap w.
Proof.
  revert w. induction evs as [|ev evs IH]; intros w Hf H.
  - now injection H as _ <-.
  - apply Forall_cons in Hf as [Hev Hf]. cbn [exec_events] in H.
    unfold bind at 1, perform in H.
    destruct (raises (trace w) ev).
    + now injection H as _ <-.
    + apply (IH _ Hf) in H. cbn [heap] in H. rewrite H.
      now destruct ev.
Qed.

Lemma GenerateSingleFile_plan_calls systems :
  Forall (fun ev => match ev with
                    | LoggerInfo _ | SubprocessCall [_] true => True
                    | _ => False
                    end)
         (GenerateSingleFile_plan systems).
Proof.
  unfold GenerateSingleFile_plan, copy_plan.
  destruct (str_in "frog" systems), (str_in "htmlfrog" systems),
    (str_in "htmldartium" systems), (str_in "dummy" systems);
    cbn [app]; repeat constructor.
Qed.

(** [GenerateSingleFile] makes the calls of [GenerateSingleFile_plan] and
    nothing else, stopping early only if one of them raises: for each of
    [frog], [htmlfrog], [htmldartium], [dummy] that occurs in [systems], in
    this fixed order, a log line followed by one shell command given as a
    one-element argument list with [shell=True].  It never raises by itself
    (an identifier it does not know is skipped silently), and it constructs
    and modifies no object. *)
Theorem GenerateSingleFile_run raises systems w r w' :
  GenerateSingleFile raises systems w = (r, w') ->
  exists d,
    trace w' = trace w ++ d
    /\ heap w' = heap w
    /\ d `prefix_of` GenerateSingleFile_plan systems
    /\ Forall (fun ev => match ev with
                         | LoggerInfo _ | SubprocessCall [_] true => True
                         | _ => False
                         end) d
    /\ length d <= 8
    /\ (r = Ok tt
        \/ exists pre ev detail,
             d = pre ++ [ev] /\ raises (trace w ++ pre) ev = Some detail
             /\ r = Raise (CollaboratorError ev detail))
    /\ (r = Ok tt -> d = GenerateSingleFile_plan systems)
    /\ ((forall h ev, raises h ev = None) ->
        r = Ok tt /\ d = GenerateSingleFile_plan systems).
Proof.
  intros H.
  pose proof (GenerateSingleFile_plan_calls systems) as Hc.
  destruct (planned_outcome _ _ _ _ _ _
              (GenerateSingleFile_planned raises systems) H)
    as (d & Ht & Ho).
  cbn [fst snd] in Ho.
  pose proof (Outcome_prefix _ _ _ _ _ _ Ho) as Hp.
  exists d. split; [assumption|]. split.
  { rewrite (GenerateSingleFile_planned raises systems w) in H.
    unfold exec, bind in H. cbn [fst snd] in H.
    destruct (exec_events raises (GenerateSingleFile_plan systems) w)
      as [[[]|e] w1] eqn:E.
    - injection H as _ <-. eapply exec_events_heap; [|exact E].
      eapply Forall_impl; [exact Hc|]. intros ev. now destruct ev.
    - injection H as _ <-. eapply exec_events_heap; [|exact E].
      eapply Forall_impl; [exact Hc|]. intros ev. now destruct ev. }
  split; [assumption|].
  split; [eapply Forall_prefix; eassumption|]. split.
  { apply prefix_length in Hp. etransitivity; [exact Hp|].
    unfold GenerateSingleFile_plan, copy_plan.
    destruct (str_in "frog" systems), (str_in "htmlfrog" systems),
      (str_in "htmldartium" systems), (str_in "dummy" systems);
      cbn [app length]; lia. }
  split; [|split].
  - destruct (Outcome_cases _ _ _ _ _ _ Ho) as [[_ ->] | Hr];
      [now left | now right].
  - intros ->. now destruct (Outcome_Ok _ _ _ _ _ Ho).
  - intros Hq. destruct (Outcome_quiet _ _ _ _ _ _ Hq Ho) as [-> ->].
    now split.
Qed.

Lemma GenerateSingleFile_run_witness :
  exists d,
    trace (snd (GenerateSingleFile quiet ["htmlfrog"; "dummy"] loop_world))
    = [] ++ d
    /\ heap (snd (GenerateSingleFile quiet ["htmlfrog"; "dummy"] loop_world))
       = heap loop_world
    /\ d `prefix_of` GenerateSingleFile_plan ["htmlfrog"; "dummy"].
Proof.
  destruct (GenerateSingleFile_run quiet ["htmlfrog"; "dummy"] loop_world
              (Ok tt)
              (snd (GenerateSingleFile quiet ["htmlfrog"; "dummy"]
                      loop_world)))
    as (d & Ht & Hh & Hp & _); [vm_compute; reflexivity|].
  exists d. now repeat split.
Defined.

(** ** [main] *)

Lemma Outcome_cons_inv raises h ev evs fin d r :
  Outcome raises h (ev :: evs) fin d r -> exists d', d = ev :: d'.
Proof. inversion 1; eauto. Qed.

Lemma body_plan_no_copy current_dir system_names database_dir
    use_database_cache dom_output_dir html_output_dir n :
  Forall (fun ev => is_copy ev = false)
    (body_plan current_dir system_names database_dir use_database_cache
       dom_output_dir html_output_dir n).
Proof.
  unfold body_plan. apply Forall_app. split.
  - unfold stages_plan. destruct use_database_cache; repeat constructor.
  - constructor; [reflexivity|]. unfold backends_plan.
    eapply Forall_impl; [apply loop_plan_Forall, dispatch_plan_calls|].
    intros ev (Hev & _). now destruct ev.
Qed.

(** What a run of [main] adds to the trace, against its plan. *)
Lemma main_run raises current_dir options w r w' :
  main raises current_dir options w = (r, w') ->
  let n := length (heap w) in
  let names := split_comma (systems options) in
  let body :=
    body_plan current_dir names (path_join current_dir [".."; "database"])
      (use_database_cache options) (dom_output_dir current_dir options)
      (html_output_dir current_dir options) n in
  let fin :=
    snd (backends_plan current_dir names (dom_output_dir current_dir options)
           (html_output_dir current_dir options) n) in
  exists d,
    trace w' = trace w ++ FileConfig (path_join current_dir ["logging.conf"])
                          :: d
    /\ d `prefix_of`
         body ++ match fin with
                 | None => [LoggerInfo "Flush..."; Flush (3 + n)]
                           ++ GenerateSingleFile_plan names
                 | Some _ => []
                 end
    /\ Outcome raises (trace w)
         (FileConfig (path_join current_dir ["logging.conf"])
          :: body ++ match fin with
                     | None => [LoggerInfo "Flush..."; Flush (3 + n)]
                               ++ GenerateSingleFile_plan names
                     | Some _ => []
                     end)
         fin
         (FileConfig (path_join current_dir ["logging.conf"]) :: d) r.
Proof.
  intros H n names body fin.
  destruct (planned_outcome _ _ _ _ _ _
              (main_planned raises current_dir options) H)
    as (d & Ht & Ho).
  fold n in Ho. unfold main_plan in Ho. cbn [fst snd] in Ho.
  rewrite Generate_plan_body in Ho. fold names in Ho. fold body in Ho.
  change (snd (Generate_plan current_dir names
                 (path_join current_dir [".."; "database"])
                 (use_database_cache options)
                 (dom_output_dir current_dir options)
                 (html_output_dir current_dir options) n)) with fin in Ho.
  fold fin in Ho.
  assert (E : (body ++ match fin with
                       | Some _ => []
                       | None => [LoggerInfo "Flush..."; Flush (3 + n)]
                       end)
              ++ match fin with
                 | Some _ => []
                 | None => GenerateSingleFile_plan names
                 end
              = body ++ match fin with
                        | None => [LoggerInfo "Flush..."; Flush (3 + n)]
                                  ++ GenerateSingleFile_plan names
                        | Some _ => []
                        end).
  { destruct fin; rewrite <- app_assoc; reflexivity. }
  rewrite E in Ho.
  destruct (Outcome_cons_inv _ _ _ _ _ _ _ Ho) as (d' & ->).
  exists d'. split; [assumption|]. split; [|assumption].
  apply Outcome_prefix in Ho. now apply prefix_cons_inv_2 in Ho.
Qed.



(** When [--systems] names an identifier that is not supported, [main] never
    returns normally, whatever the collaborators do: the emitter is not
    flushed and no copy command is run.  With collaborators that never
    raise, the exception is the driver's own and names the first unsupported
    identifier. *)
Theorem main_unsupported_identifier raises current_dir options w r w' y :
  In y (split_comma (systems options)) ->
  supported y = false ->
  main raises current_dir options w = (r, w') ->
  exists x d,
    List.find (fun x => negb (supported x)) (split_comma (systems options))
    = Some x
    /\ trace w' = trace w ++ d
    /\ Forall (fun ev => is_flush ev = false /\ is_copy ev = false) d
    /\ (exists e, r = Raise e)
    /\ ((forall h ev, raises h ev = None) ->
        r = Raise (Exception ("Unsupported system_name " +:+ x))).
Proof.
  intros Hin Hy H.
  destruct (find_unsupported _ _ Hin Hy) as (x & Hfind & _ & _).
  destruct (main_run _ _ _ _ _ _ H) as (d & Ht & Hp & Ho).
  cbn zeta in Hp, Ho. rewrite backends_plan_fin, Hfind in Hp, Ho.
  rewrite app_nil_r in Hp.
  exists x, (FileConfig (path_join current_dir ["logging.conf"]) :: d).
  split; [exact Hfind|]. split; [assumption|]. split; [|split].
  - constructor; [now split|].
    eapply Forall_prefix; [exact Hp|].
    pose proof (body_plan_no_flush current_dir
                  (split_comma (systems options))
                  (path_join current_dir [".."; "database"])
                  (use_database_cache options)
                  (dom_output_dir current_dir options)
                  (html_output_dir current_dir options) (length (heap w)))
      as H1.
    pose proof (body_plan_no_copy current_dir
                  (split_comma (systems options))
                  (path_join current_dir [".."; "database"])
                  (use_database_cache options)
                  (dom_output_dir current_dir options)
                  (html_output_dir current_dir options) (length (heap w)))
      as H2.
    rewrite List.Forall_forall in *. intros ev Hev. split; auto.
  - destruct (Outcome_cases _ _ _ _ _ _ Ho) as [[_ ->] | (?&?&?&_&_&->)];
      eauto.
  - intros Hq. now destruct (Outcome_quiet _ _ _ _ _ _ Hq Ho) as [_ ->].
Qed.

Lemma main_unsupported_identifier_witness :
  exists x d,
    List.find (fun x => negb (supported x)) (split_comma "frog,dumy")
    = Some x
    /\ trace (snd (main quiet "scripts" (mkOptions "frog,dumy" None false)
                     world0)) = [] ++ d
    /\ Forall (fun ev => is_flush ev = false /\ is_copy ev = false) d.
Proof.
  destruct (main_unsupported_identifier quiet "scripts"
              (mkOptions "frog,dumy" None false) world0
              (Raise (Exception "Unsupported system_name dumy"))
              (snd (main quiet "scripts" (mkOptions "frog,dumy" None false)
                      world0)) "dumy")
    as (x & d & Hf & Ht & Hd & _).
  - vm_compute. auto.
  - reflexivity.
  - vm_compute. reflexivity.
  - exists x, d. now repeat split.
Defined.

(** *** How [main] reads [--systems] *)

Lemma split_comma_nonempty s : split_comma s <> [].
Proof.
  destruct s as [|c s]; [discriminate|]. cbn [split_comma].
  destruct (Ascii.eqb c ","); [discriminate|].
  destruct (split_comma s); discriminate.
Qed.

(** The identifiers [main] takes from the [--systems] string are its
    comma-separated pieces: joined with commas they give the string back,
    none of them contains a comma, and there is always at least one (the
    empty string yields the single identifier ['']). *)
Theorem split_comma_round_trip s :
  String.concat "," (split_comma s) = s
  /\ split_comma s <> []
  /\ Forall (fun x => ~ In ","%char (list_ascii_of_string x)) (split_comma s).
Proof.
  split; [|split; [apply split_comma_nonempty|]].
  - induction s as [|c s IH]; [reflexivity|]. cbn [split_comma].
    destruct (Ascii.eqb c ",") eqn:E.
    + apply Ascii.eqb_eq in E. subst c.
      pose proof (split_comma_nonempty s) as Hn.
      destruct (split_comma s) as [|x r] eqn:Es; [contradiction|].
      rewrite <- IH. reflexivity.
    + pose proof (split_comma_nonempty s) as Hn.
      destruct (split_comma s) as [|x r] eqn:Es; [contradiction|].
      rewrite <- IH. destruct r; reflexivity.
  - induction s as [|c s IH]; [repeat constructor; intros []|].
    cbn [split_comma]. destruct (Ascii.eqb c ",") eqn:E.
    + constructor; [intros []|assumption].
    + destruct (split_comma s) as [|x r].
      * constructor; [|constructor]. cbn. intros [Hc|[]].
        subst c. discriminate.
      * apply Forall_cons in IH as [Hx Hr]. constructor; [|assumption].
        cbn. intros [Hc|Hin]; [|contradiction].
        subst c. discriminate.
Qed.

(** A run of [main] that returns normally was asked for at least one
    identifier, all of them supported; it made the logging call, all the
    calls of [Generate] ending with the flush, then the copies, and at least
    one generator ran. *)
Theorem main_success raises current_dir options w w' :
  main raises current_dir options w = (Ok tt, w') ->
  let n := length (heap w) in
  let names := split_comma (systems options) in
  let body :=
    body_plan current_dir names (path_join current_dir [".."; "database"])
      (use_database_cache options) (dom_output_dir current_dir options)
      (html_output_dir current_dir options) n in
  names <> []
  /\ Forall (fun x => supported x = true) names
  /\ trace w'
     = trace w
       ++ FileConfig (path_join current_dir ["logging.conf"])
       :: body
       ++ [LoggerInfo "Flush..."; Flush (3 + n)]
       ++ GenerateSingleFile_plan names
  /\ generated body <> [].
Proof.
  intros H n names body.
  destruct (main_run _ _ _ _ _ _ H) as (d & Ht & _ & Ho).
  cbn zeta in Ho. fold n names in Ho. fold body in Ho.
  destruct (Outcome_Ok _ _ _ _ _ Ho) as [Hd Hfin].
  rewrite Hfin in Hd. injection Hd as ->.
  split; [apply split_comma_nonempty|]. split; [|split; [assumption|]].
  - rewrite backends_plan_fin in Hfin. apply List.Forall_forall.
    intros x Hx. destruct (List.find _ names) eqn:E; [discriminate|].
    apply (find_none _ _ E) in Hx. cbn beta in Hx.
    now destruct (supported x).
  - destruct (loop_plan_segments _ _ _ _ _ _ _ _ _ _ Hfin)
      as (segs & Hc & Hf).
    pose proof (split_comma_nonempty (systems options)) as Hne.
    fold names in Hne, Hf.
    destruct Hf as [|x seg l segs' (k & _ & Hg) _]; [contradiction|].
    unfold body, body_plan, backends_plan. rewrite Hc. cbn [concat].
    assert (Happ : forall a b, generated (a ++ b)
                               = generated a ++ generated b).
    { intros a b. induction a as [|[] a IH]; cbn [app generated];
        rewrite ?IH; reflexivity. }
    rewrite Happ. change (New (3 + n) MultiEmitter :: seg ++ concat segs')
      with ([New (3 + n) MultiEmitter] ++ seg ++ concat segs').
    rewrite !Happ. intros E.
    apply app_eq_nil in E as [_ E]. apply app_eq_nil in E as [_ E].
    apply app_eq_nil in E as [E _]. rewrite E in Hg.
    destruct (str_in x ["htmlfrog"; "htmldartium"]); discriminate.
Qed.

Lemma main_success_witness :
  split_comma "htmldartium" <> []
  /\ Forall (fun x => supported x = true) (split_comma "htmldartium").
Proof.
  destruct (main_success quiet "scripts"
              (mkOptions "htmldartium" (Some "out") true) world0
              (snd (main quiet "scripts"
                      (mkOptions "htmldartium" (Some "out") true) world0)))
    as (Hn & Hs & _); [vm_compute; reflexivity|].
  now split.
Defined.

(** *** The output directories are never empty *)

Lemma append_nonempty p c s : p +:+ String c s <> "".
Proof. destruct p; discriminate. Qed.

(** Whatever the options, [main] never passes an empty output directory to
    [Generate]. *)
Theorem output_dirs_nonempty current_dir options :
  dom_output_dir current_dir options <> ""
  /\ html_output_dir current_dir options <> "".
Proof.
  unfold dom_output_dir, html_output_dir, py_or, path_join.
  cbn [fold_left]. unfold join2. cbn [starts_with_slash Ascii.eqb Bool.eqb].
  destruct (output_dir options) as [[|c s]|];
    try (split; discriminate);
    destruct (String.eqb current_dir "" || ends_with_slash current_dir);
    split; apply append_nonempty.
Qed.

(** ** More about [Generate] *)

Lemma loop_plan_unsupported_cut auxiliary_dir template_dir generator
    common_database webkit_database emitters dom_output_dir html_output_dir
    (before after : list string) x n :
  supported x = false ->
  loop_plan auxiliary_dir template_dir generator common_database
    webkit_database emitters dom_output_dir html_output_dir
    (before ++ x :: after) n
  = loop_plan auxiliary_dir template_dir generator common_database
      webkit_database emitters dom_output_dir html_output_dir
      (before ++ [x]) n.
Proof.
  intros Hx. revert n. induction before as [|y l IH]; intros n.
  - cbn [app loop_plan]. unfold then_plan.
    rewrite (dispatch_plan_fin auxiliary_dir template_dir generator
               common_database webkit_database emitters dom_output_dir
               html_output_dir x n), Hx.
    reflexivity.
  - cbn [app loop_plan]. unfold then_plan.
    destruct (snd (dispatch_plan _ _ _ _ _ _ _ _ y n)); [reflexivity|].
    now rewrite IH.
Qed.

(** The identifiers that follow the first unsupported one are never looked
    at: whatever they are and whatever the collaborators do, the run is the
    same as if the list ended with the unsupported identifier. *)
Theorem Generate_stops_at_unsupported raises current_dir
    (before after : list string) x database_dir use_database_cache
    dom_output_dir html_output_dir w :
  supported x = false ->
  Generate raises current_dir (before ++ x :: after) database_dir
    use_database_cache dom_output_dir html_output_dir w
  = Generate raises current_dir (before ++ [x]) database_dir
      use_database_cache dom_output_dir html_output_dir w.
Proof.
  intros Hx. rewrite !Generate_planned. f_equal.
  unfold Generate_plan, backends_plan.
  now rewrite (loop_plan_unsupported_cut _ _ _ _ _ _ _ _ before after x).
Qed.

Lemma Generate_stops_at_unsupported_witness :
  Generate failing_generator "scripts" (["dummy"] ++ "bogus" :: ["frog"])
    "db" false "dom" "html" world0
  = Generate failing_generator "scripts" (["dummy"] ++ ["bogus"])
      "db" false "dom" "html" world0.
Proof.
  apply (Generate_stops_at_unsupported failing_generator "scripts"
           ["dummy"] ["frog"] "bogus" "db" false "dom" "html" world0).
  reflexivity.
Defined.

(** Every backend of a run is bound to the same collaborators: every type
    registry, renamer and generator options object is built over the working
    clone of the database, every generator options object holds the one
    emitter that is flushed at the end, every template loader searches under
    [current_dir/../templates], and every generator run is given the same
    generator, the working clone, the base database as super database and
    the rename table. *)
Theorem Generate_backends_share_collaborators raises current_dir system_names
    database_dir use_database_cache dom_output_dir html_output_dir w r w' :
  Generate raises current_dir system_names database_dir use_database_cache
    dom_output_dir html_output_dir w = (r, w') ->
  let n := length (heap w) in
  exists d,
    trace w' = trace w ++ d
    /\ (4 <= length d ->
        d !! 2 = Some (New (1 + n) (Database database_dir)))
    /\ (forall r' o, New r' (Database_Clone o) ∈ d -> r' = 2 + n /\ o = 1 + n)
    /\ (forall r', New r' MultiEmitter ∈ d -> r' = 3 + n)
    /\ Forall (bound_to (path_join current_dir [".."; "templates"]) n) d.
Proof.
  intros H n.
  destruct (Generate_run _ _ _ _ _ _ _ _ _ _ H) as (d & Ht & Ho).
  cbn zeta in Ho. fold n in Ho.
  apply Outcome_prefix in Ho.
  set (P := fun ev =>
              bound_to (path_join current_dir [".."; "templates"]) n ev
              /\ (forall r' o, ev = New r' (Database_Clone o) ->
                  r' = 2 + n /\ o = 1 + n)
              /\ (forall r', ev = New r' MultiEmitter -> r' = 3 + n)).
  assert (Hall : Forall P
            (body_plan current_dir system_names database_dir
               use_database_cache dom_output_dir html_output_dir n
             ++ match snd (backends_plan current_dir system_names
                             dom_output_dir html_output_dir n) with
                | Some _ => []
                | None => [LoggerInfo "Flush..."; Flush (3 + n)]
                end)).
  { apply Forall_app. split.
    - unfold body_plan. apply Forall_app. split.
      + unfold stages_plan. destruct use_database_cache;
          repeat constructor; try discriminate; congruence.
      + constructor.
        * repeat split; try discriminate; congruence.
        * unfold backends_plan. apply loop_plan_Forall. intros x m.
          unfold dispatch_plan, html_plan, plain_plan, interface_plan,
            CreateGeneratorOptions_plan, Generate'_plan.
          destruct (str_in x ["htmlfrog"; "htmldartium"]);
            [destruct (String.eqb x "htmlfrog")
            |destruct (String.eqb x "dummy");
             [|destruct (String.eqb x "frog")]];
            cbn [fst app]; repeat constructor; discriminate.
    - destruct (snd _); repeat constructor; discriminate. }
  pose proof (Forall_prefix _ _ _ Ho Hall) as Hd.
  exists d. split; [assumption|]. split; [|split; [|split]].
  - intros Hlen. destruct Ho as [k Hk].
    apply (f_equal (fun l => l !! 2)) in Hk.
    rewrite (lookup_app_l d k) in Hk by lia. rewrite <- Hk.
    unfold body_plan, stages_plan. now destruct use_database_cache.
  - intros r' o Hin. rewrite Forall_forall in Hd.
    destruct (Hd _ Hin) as (_ & Hc & _). now apply Hc.
  - intros r' Hin. rewrite Forall_forall in Hd.
    destruct (Hd _ Hin) as (_ & _ & He). now apply He.
  - eapply Forall_impl; [exact Hd|]. now intros ev [? _].
Qed.

Lemma Generate_backends_share_collaborators_witness :
  exists d,
    trace (snd (Generate quiet "scripts" ["htmlfrog"; "frog"] "db" false
                  "dom" "html" world0)) = [] ++ d
    /\ Forall (bound_to (path_join "scripts" [".."; "templates"]) 0) d.
Proof.
  assert (E : Generate quiet "scripts" ["htmlfrog"; "frog"] "db" false
                "dom" "html" world0
              = (Ok tt,
                 snd (Generate quiet "scripts" ["htmlfrog"; "frog"] "db"
                        false "dom" "html" world0)))
    by (vm_compute; reflexivity).
  pose proof (Generate_backends_share_collaborators quiet "scripts"
                ["htmlfrog"; "frog"] "db" false "dom" "html" world0 (Ok tt)
                _ E) as X.
  cbv zeta in X. destruct X as (d & Ht & _ & _ & _ & Hd).
  exists d. split; [exact Ht | exact Hd].
Defined.

(** Every template loader of a run is given a search chain that ends with
    the template root itself (the sub-path ['']), so a template missing from
    the backend's own directories is looked up in the shared root last. *)
Theorem Generate_template_chains_end_at_root raises current_dir system_names
    database_dir use_database_cache dom_output_dir html_output_dir w r w' :
  Generate raises current_dir system_names database_dir use_database_cache
    dom_output_dir html_output_dir w = (r, w') ->
  exists d,
    trace w' = trace w ++ d
    /\ forall r' root paths conds,
         New r' (TemplateLoader root paths conds) ∈ d ->
         last paths = Some "" /\ 3 <= length paths.
Proof.
  intros H.
  destruct (Generate_run _ _ _ _ _ _ _ _ _ _ H) as (d & Ht & Ho).
  cbn zeta in Ho. apply Outcome_prefix in Ho.
  set (P := fun ev => match ev with
                      | New _ (TemplateLoader _ paths _) =>
                          last paths = Some "" /\ 3 <= length paths
                      | _ => True
                      end).
  assert (Hall : Forall P
            (body_plan current_dir system_names database_dir
               use_database_cache dom_output_dir html_output_dir
               (length (heap w))
             ++ match snd (backends_plan current_dir system_names
                             dom_output_dir html_output_dir
                             (length (heap w))) with
                | Some _ => []
                | None => [LoggerInfo "Flush...";
                           Flush (3 + length (heap w))]
                end)).
  { apply Forall_app. split.
    - unfold body_plan. apply Forall_app. split.
      + unfold stages_plan. destruct use_database_cache;
          repeat constructor.
      + constructor; [exact I|].
        unfold backends_plan. apply loop_plan_Forall. intros x m.
        unfold dispatch_plan, html_plan, plain_plan, interface_plan,
          CreateGeneratorOptions_plan, Generate'_plan.
        destruct (str_in x ["htmlfrog"; "htmldartium"]);
          [destruct (String.eqb x "htmlfrog")
          |destruct (String.eqb x "dummy");
           [|destruct (String.eqb x "frog")]];
          cbn [fst app]; repeat constructor.
    - destruct (snd _); repeat constructor. }
  pose proof (Forall_prefix _ _ _ Ho Hall) as Hd.
  exists d. split; [assumption|].
  intros r' root paths conds Hin. rewrite Forall_forall in Hd.
  exact (Hd _ Hin).
Qed.

Lemma Generate_template_chains_end_at_root_witness :
  exists d,
    trace (snd (Generate quiet "scripts" ["htmldartium"] "db" false
                  "dom" "html" world0)) = [] ++ d
    /\ forall r' root paths conds,
         New r' (TemplateLoader root paths conds) ∈ d ->
         last paths = Some "" /\ 3 <= length paths.
Proof.
  apply (Generate_template_chains_end_at_root quiet "scripts"
           ["htmldartium"] "db" false "dom" "html" world0 (Ok tt)).
  vm_compute. reflexivity.
Defined.

Lemma Generate_always_env (J : list Event -> Event -> Prop) current_dir
    dom_output_dir html_output_dir :
  (forall generator common_database webkit_database emitters x n h,
     always J h
       (fst (dispatch_plan (path_join current_dir [".."; "src"])
               (path_join current_dir [".."; "templates"]) generator
               common_database webkit_database emitters dom_output_dir
               html_output_dir x n))) ->
  (forall h ev, is_backend_call ev = false -> J h ev) ->
  forall raises system_names database_dir use_database_cache w r w',
    Generate raises current_dir system_names database_dir
      use_database_cache dom_output_dir html_output_dir w = (r, w') ->
    exists d, trace w' = trace w ++ d /\ forall h, always J h d.
Proof.
  intros Hd Hother raises system_names database_dir use_database_cache
    w r w' H.
  destruct (Generate_run _ _ _ _ _ _ _ _ _ _ H) as (d & Ht & Ho).
  exists d. split; [assumption|]. intros h.
  eapply always_prefix; [exact (Outcome_prefix _ _ _ _ _ _ Ho)|].
  cbn zeta. set (n := length (heap w)).
  unfold body_plan. rewrite <- app_assoc. apply always_app.
  { unfold stages_plan. destruct use_database_cache;
      repeat (apply always_cons; [now apply Hother|]); apply always_nil. }
  cbn [app]. apply always_cons; [now apply Hother|].
  apply always_app.
  - unfold backends_plan. apply loop_plan_always. intros x m h'. apply Hd.
  - destruct (snd _); [apply always_nil|].
    repeat (apply always_cons; [now apply Hother|]). apply always_nil.
Qed.

Lemma composed_into_last out (with_renamer : bool) options pre tl root paths
    conds db em tr ren :
  (if with_renamer then exists r, ren = Some r else ren = None) ->
  composed_into out with_renamer options
    ((pre ++ [New tl (TemplateLoader root paths conds)])
     ++ [New options (GeneratorOptions tl db em tr ren out)]).
Proof.
  intros Hr. exists pre, tl, root, paths, conds, db, em, tr, ren.
  split; [now rewrite <- app_assoc | assumption].
Qed.

Lemma dispatch_plan_output auxiliary_dir template_dir generator
    common_database webkit_database emitters dom_output_dir html_output_dir
    system_name n h :
  always (output_by_kind dom_output_dir html_output_dir) h
    (fst (dispatch_plan auxiliary_dir template_dir generator common_database
            webkit_database emitters dom_output_dir html_output_dir
            system_name n)).
Proof.
  unfold dispatch_plan, html_plan, plain_plan, interface_plan,
    CreateGeneratorOptions_plan, Generate'_plan.
  destruct (str_in system_name ["htmlfrog"; "htmldartium"]);
    [destruct (String.eqb system_name "htmlfrog")
    |destruct (String.eqb system_name "dummy");
     [|destruct (String.eqb system_name "frog")]];
    cbn [fst app];
    repeat (apply always_cons;
            [first [exact I
                   |apply composed_into_last;
                    first [reflexivity | eexists; reflexivity]]|]);
    apply always_nil.
Qed.

(** In every run, each generator is constructed directly after its own
    configuration is composed, and that configuration depends on the kind of
    generator: the html-style generators ([HtmlFrogSystem],
    [NativeImplementationSystem], [HtmlInterfacesSystem]) are configured for
    the html output directory and carry a renamer; the plain ones
    ([InterfacesSystem], [DummyImplementationSystem], [FrogSystem]) are
    configured for the dom output directory and carry none. *)
Theorem Generate_output_by_kind raises current_dir system_names database_dir
    use_database_cache dom_output_dir html_output_dir w r w' :
  Generate raises current_dir system_names database_dir use_database_cache
    dom_output_dir html_output_dir w = (r, w') ->
  exists d,
    trace w' = trace w ++ d
    /\ forall pre ev post,
         d = pre ++ ev :: post ->
         output_by_kind dom_output_dir html_output_dir pre ev.
Proof.
  intros H.
  assert (Hother : forall h ev,
            is_backend_call ev = false ->
            output_by_kind dom_output_dir html_output_dir h ev).
  { intros h ev Hev. destruct ev as [? []| | | | | | | | | | | | |];
      try exact I; discriminate. }
  destruct (Generate_always_env
              (output_by_kind dom_output_dir html_output_dir) current_dir
              dom_output_dir html_output_dir
              (fun g c db em x n h =>
                 dispatch_plan_output _ _ g c db em _ _ x n h)
              Hother _ _ _ _ _ _ _ H) as (d & Ht & Ha).
  exists d. split; [assumption|].
  intros pre ev post Hd. exact (Ha [] pre ev post Hd).
Qed.

Lemma Generate_output_by_kind_witness :
  exists d,
    trace (snd (Generate quiet "scripts" ["htmlfrog"; "dummy"] "db" false
                  "dom" "html" world0)) = [] ++ d
    /\ forall pre ev post,
         d = pre ++ ev :: post -> output_by_kind "dom" "html" pre ev.
Proof.
  apply (Generate_output_by_kind quiet "scripts" ["htmlfrog"; "dummy"] "db"
           false "dom" "html" world0 (Ok tt)).
  vm_compute. reflexivity.
Defined.

(** [main] and [Generate] have no exception handler: the first call that
    raises is the last call made, and its exception is the result of the
    run.  Conversely a run that ends in a collaborator's exception ends with
    the call that raised it, and a run in which no call raises ends normally
    or in the driver's own exception for an unsupported identifier. *)
Theorem main_propagates_first_failure raises current_dir options w r w' :
  main raises current_dir options w = (r, w') ->
  exists d,
    trace w' = trace w ++ d
    /\ (forall pre ev post detail,
          d = pre ++ ev :: post ->
          raises (trace w ++ pre) ev = Some detail ->
          post = [] /\ r = Raise (CollaboratorError ev detail))
    /\ (forall ev detail,
          r = Raise (CollaboratorError ev detail) ->
          exists pre,
            d = pre ++ [ev] /\ raises (trace w ++ pre) ev = Some detail)
    /\ (r = Ok tt
        \/ (exists x,
              List.find (fun x => negb (supported x))
                (split_comma (systems options)) = Some x
              /\ r = Raise (Exception ("Unsupported system_name " +:+ x)))
        \/ exists ev detail, r = Raise (CollaboratorError ev detail)).
Proof.
  intros H.
  destruct (planned_outcome _ _ _ _ _ _
              (main_planned raises current_dir options) H)
    as (d & Ht & Ho).
  assert (Hfin : snd (main_plan current_dir options (length (heap w)))
                 = match List.find (fun x => negb (supported x))
                           (split_comma (systems options)) with
                   | Some x =>
                       Some (Exception ("Unsupported system_name " +:+ x))
                   | None => None
                   end)
    by apply backends_plan_fin.
  rewrite Hfin in Ho.
  exists d. split; [assumption|]. split; [|split].
  - intros pre ev post detail Hd Hr.
    exact (Outcome_stop _ _ _ _ _ _ Ho pre ev post detail Hd Hr).
  - intros ev detail ->.
    destruct (Outcome_cases _ _ _ _ _ _ Ho)
      as [[_ Hf] | (pre & ev' & detail' & Hd & Hr & E)].
    + destruct (List.find _ _); discriminate.
    + injection E as <- <-. now exists pre.
  - destruct (Outcome_cases _ _ _ _ _ _ Ho)
      as [[_ ->] | (pre & ev' & detail' & _ & _ & ->)]; [|eauto].
    destruct (List.find _ _) as [x|]; [right; left; eauto | now left].
Qed.

Lemma main_propagates_first_failure_witness :
  exists d,
    trace (snd (main failing_generator "scripts"
                  (mkOptions "frog" None false) world0)) = [] ++ d.
Proof.
  destruct (main_propagates_first_failure failing_generator "scripts"
              (mkOptions "frog" None false) world0
              (fst (main failing_generator "scripts"
                      (mkOptions "frog" None false) world0))
              (snd (main failing_generator "scripts"
                      (mkOptions "frog" None false) world0)))
    as (d & Ht & _); [vm_compute; reflexivity|].
  exists d. exact Ht.
Defined.

(** ** The rename table *)

(** The W3C-to-WebKit rename table has eight entries, maps distinct names to
    distinct names, and no name it produces is itself renamed: a renamed
    name is a fixed point of the table. *)
Theorem webkit_renames_injective_no_chain :
  size _webkit_renames = 8
  /\ (forall k1 k2 v,
        _webkit_renames !! k1 = Some v -> _webkit_renames !! k2 = Some v ->
        k1 = k2)
  /\ (forall k v,
        _webkit_renames !! k = Some v -> _webkit_renames !! v = None).
Proof.
  assert (Hl : forall k v,
            _webkit_renames !! k = Some v ->
            In (k, v)
               [ ("ApplicationCache", "DOMApplicationCache");
                 ("BarProp", "BarInfo");
                 ("DedicatedWorkerGlobalScope", "DedicatedWorkerContext");
                 ("FormData", "DOMFormData");
                 ("Selection", "DOMSelection");
                 ("SharedWorkerGlobalScope", "SharedWorkerContext");
                 ("Window", "DOMWindow");
                 ("WorkerGlobalScope", "WorkerContext") ]).
  { intros k v H. unfold _webkit_renames in H.
    repeat (apply lookup_insert_Some in H as [[<- <-] | [_ H]];
            [cbn; tauto|]).
    apply lookup_singleton_Some in H as [<- <-]. cbn; tauto. }
  split; [vm_compute; reflexivity|]. split.
  - intros k1 k2 v H1 H2. apply Hl in H1, H2. cbn [In] in H1, H2.
    repeat (destruct H1 as [H1|H1]; [injection H1 as <- <-|]);
      try contradiction;
      repeat (destruct H2 as [H2|H2];
              [first [discriminate H2 | congruence]|]);
      contradiction.
  - intros k v H. apply Hl in H. cbn [In] in H.
    repeat (destruct H as [H|H];
            [injection H as <- <-; vm_compute; reflexivity|]).
    contradiction.
Qed.

(** ** Runs in which no call raises *)

(** With collaborators that never raise, [Generate] makes every call of its
    plan: it returns normally exactly when every requested identifier is
    supported, after the terminal flush; otherwise it ends, without a flush,
    in the driver's exception naming the first unsupported identifier. *)
Theorem Generate_without_failures raises current_dir system_names
    database_dir use_database_cache dom_output_dir html_output_dir w :
  (forall h ev, raises h ev = None) ->
  let n := length (heap w) in
  let body :=
    body_plan current_dir system_names database_dir use_database_cache
      dom_output_dir html_output_dir n in
  exists w',
    Generate raises current_dir system_names database_dir
      use_database_cache dom_output_dir html_output_dir w
    = (match List.find (fun x => negb (supported x)) system_names with
       | Some x => Raise (Exception ("Unsupported system_name " +:+ x))
       | None => Ok tt
       end, w')
    /\ trace w'
       = trace w ++ body
         ++ match List.find (fun x => negb (supported x)) system_names with
            | Some _ => []
            | None => [LoggerInfo "Flush..."; Flush (3 + n)]
            end.
Proof.
  intros Hq n body.
  destruct (Generate raises current_dir system_names database_dir
              use_database_cache dom_output_dir html_output_dir w)
    as [r w'] eqn:H.
  destruct (Generate_run _ _ _ _ _ _ _ _ _ _ H) as (d & Ht & Ho).
  cbn zeta in Ho. fold n in Ho. fold body in Ho.
  rewrite backends_plan_fin in Ho.
  destruct (Outcome_quiet _ _ _ _ _ _ Hq Ho) as [-> ->].
  exists w'. now destruct (List.find _ system_names).
Qed.

Lemma Generate_without_failures_witness :
  exists w',
    Generate quiet "scripts" ["frog"; "dummy"] "db" false "dom" "html"
      world0 = (Ok tt, w').
Proof.
  destruct (Generate_without_failures quiet "scripts" ["frog"; "dummy"] "db"
              false "dom" "html" world0) as (w' & H & _); [reflexivity|].
  exists w'. exact H.
Defined.

(** ** The heap *)





Lemma exec_events_later raises evs w r w' :
  exec_events raises evs w = (r, w') ->
  exists d, d `prefix_of` evs /\ heap w' = later d (heap w).
Proof.
  revert w. induction evs as [|ev evs IH]; intros w H.
  - injection H as _ <-. exists []. now split.
  - cbn [exec_events] in H. unfold bind at 1, perform in H.
    destruct (raises (trace w) ev).
    + injection H as _ <-. exists []. split; [apply prefix_nil | reflexivity].
    + apply IH in H as (d & Hp & Hh). exists (ev :: d).
      split; [now apply prefix_cons | exact Hh].
Qed.

Lemma exec_later raises evs fin w r w' :
  exec raises (evs, fin) w = (r, w') ->
  exists d, d `prefix_of` evs /\ heap w' = later d (heap w).
Proof.
  unfold exec, bind. cbn [fst snd].
  destruct (exec_events raises evs w) as [[[]|e] w1] eqn:E; intros H;
    apply exec_events_later in E as (d & Hp & Hh); exists d;
    (split; [assumption|]).
  - destruct fin; injection H as _ <-; exact Hh.
  - injection H as _ <-. exact Hh.
Qed.

(** Attribute assignments whose targets are at or above [n] leave the first
    [n] objects of the heap as they are. *)
Lemma later_preserves n d h :
  Forall (fun ev => match ev with
                    | SetAttr t _ _ => n <= t
                    | _ => True
                    end) d ->
  n <= length h ->
  n <= length (later d h) /\ forall i, i < n -> later d h !! i = h !! i.
Proof.
  revert h. induction d as [|ev d IH]; intros h Hd Hn; [now split|].
  apply Forall_cons in Hd as [Hev Hd]. cbn [later fold_left].
  assert (Hlen : n <= length (effect ev h))
    by (rewrite effect_length; destruct ev; lia).
  destruct (IH _ Hd Hlen) as [Hl Hi]. split; [exact Hl|].
  intros i Hlt. unfold later in Hi. rewrite (Hi i Hlt).
  destruct ev; cbn [effect]; try reflexivity.
  - apply lookup_app_l. lia.
  - destruct (h !! target); [|reflexivity].
    apply list_lookup_insert_ne. lia.
Qed.

Lemma loop_plan_assigns_above auxiliary_dir template_dir generator
    common_database webkit_database emitters dom_output_dir html_output_dir
    n system_names m :
  n <= m ->
  Forall (fun ev => match ev with
                    | SetAttr t _ _ => n <= t
                    | _ => True
                    end)
    (fst (loop_plan auxiliary_dir template_dir generator common_database
            webkit_database emitters dom_output_dir html_output_dir
            system_names m)).
Proof.
  revert m. induction system_names as [|x l IH]; intros m Hm; [constructor|].
  cbn [loop_plan]. unfold then_plan.
  assert (Hx : Forall (fun ev => match ev with
                                 | SetAttr t _ _ => n <= t
                                 | _ => True
                                 end)
                 (fst (dispatch_plan auxiliary_dir template_dir generator
                         common_database webkit_database emitters
                         dom_output_dir html_output_dir x m))).
  { unfold dispatch_plan, html_plan, plain_plan, interface_plan,
      CreateGeneratorOptions_plan, Generate'_plan.
    destruct (str_in x ["htmlfrog"; "htmldartium"]);
      [destruct (String.eqb x "htmlfrog")
      |destruct (String.eqb x "dummy"); [|destruct (String.eqb x "frog")]];
      cbn [fst app]; repeat constructor; lia. }
  destruct (dispatch_plan _ _ _ _ _ _ _ _ x m) as [evs [e|]];
    cbn [fst snd] in *; [assumption|].
  apply Forall_app. split; [assumption|]. apply IH. lia.
Qed.

(** A run of [Generate] never modifies an object that existed before it
    started, whatever its outcome: the heap only grows, and every attribute
    assignment targets an object constructed during the run. *)
Theorem Generate_preserves_existing_objects raises current_dir system_names
    database_dir use_database_cache dom_output_dir html_output_dir w r w' :
  Generate raises current_dir system_names database_dir use_database_cache
    dom_output_dir html_output_dir w = (r, w') ->
  length (heap w) <= length (heap w')
  /\ forall i, i < length (heap w) -> heap w' !! i = heap w !! i.
Proof.
  intros H. rewrite Generate_planned in H.
  set (n := length (heap w)) in *.
  destruct (Generate_plan current_dir system_names database_dir
              use_database_cache dom_output_dir html_output_dir n)
    as [evs fin] eqn:E.
  apply exec_later in H as (d & Hp & ->).
  apply later_preserves; [|reflexivity].
  eapply Forall_prefix; [exact Hp|].
  apply (f_equal fst) in E. cbn [fst] in E. rewrite <- E.
  unfold Generate_plan. cbn [fst]. apply Forall_app. split.
  - unfold stages_plan. destruct use_database_cache; repeat constructor.
  - constructor; [exact I|]. apply Forall_app. split.
    + unfold backends_plan. apply loop_plan_assigns_above. lia.
    + destruct (snd _); repeat constructor.
Qed.

Lemma Generate_preserves_existing_objects_witness :
  length (heap loop_world)
  <= length (heap (snd (Generate quiet "scripts" ["dummy"] "db" false "dom"
                          "html" loop_world)))
  /\ forall i, i < length (heap loop_world) ->
       heap (snd (Generate quiet "scripts" ["dummy"] "db" false "dom" "html"
                    loop_world)) !! i
       = heap loop_world !! i.
Proof.
  apply (Generate_preserves_existing_objects quiet "scripts" ["dummy"] "db"
           false "dom" "html" loop_world (Ok tt)).
  vm_compute. reflexivity.
Defined.

(** ** The paths the driver derives *)

Lemma ends_with_slash_app p c s :
  ends_with_slash (p +:+ String c s) = ends_with_slash (String c s).
Proof.
  induction p as [|a p IH]; [reflexivity|].
  change (String a p +:+ String c s) with (String a (p +:+ String c s)).
  destruct (p +:+ String c s) as [|a0 s0] eqn:E;
    [destruct p; discriminate|].
  rewrite <- IH. reflexivity.
Qed.

Lemma append_assoc (a b c : string) : (a +:+ b) +:+ c = a +:+ b +:+ c.
Proof.
  induction a as [|x a IH]; [reflexivity|].
  change (String x ((a +:+ b) +:+ c) = String x (a +:+ b +:+ c)).
  now rewrite IH.
Qed.

(** Every path the driver derives is the directory of the script followed by
    a fixed relative path, with a separator between them unless that
    directory is empty or already ends with one: the auxiliary, template and
    database directories, the logging configuration and the two default
    output directories.  None depends on the working directory. *)
Theorem derived_paths_under_current_dir current_dir :
  let sep :=
    if String.eqb current_dir "" || ends_with_slash current_dir
    then "" else "/" in
  path_join current_dir [".."; "src"] = current_dir +:+ sep +:+ "../src"
  /\ path_join current_dir [".."; "templates"]
     = current_dir +:+ sep +:+ "../templates"
  /\ path_join current_dir [".."; "database"]
     = current_dir +:+ sep +:+ "../database"
  /\ path_join current_dir ["logging.conf"]
     = current_dir +:+ sep +:+ "logging.conf"
  /\ dom_output_dir current_dir default_options
     = current_dir +:+ sep +:+ "../generated"
  /\ html_output_dir current_dir default_options
     = current_dir +:+ sep +:+ "../../html/generated".
Proof.
  intros sep.
  assert (H1 : forall b,
            starts_with_slash b = false ->
            join2 current_dir b = current_dir +:+ sep +:+ b).
  { intros b Hb. unfold join2, sep. rewrite Hb.
    now destruct (String.eqb current_dir "" || ends_with_slash current_dir). }
  assert (H2 : forall x,
            starts_with_slash x = false ->
            path_join current_dir [".."; x]
            = current_dir +:+ sep +:+ "../" +:+ x).
  { intros x Hs. unfold path_join. cbn [fold_left].
    rewrite (H1 ".." eq_refl).
    unfold join2 at 1. rewrite Hs.
    assert (E : String.eqb (current_dir +:+ sep +:+ "..") "" = false).
    { apply String.eqb_neq. rewrite <- append_assoc.
      apply append_nonempty. }
    rewrite E, <- append_assoc, ends_with_slash_app. cbn [orb].
    change (ends_with_slash "..") with false. cbn iota.
    rewrite !append_assoc. reflexivity. }
  repeat split.
  - apply (H2 "src"); reflexivity.
  - apply (H2 "templates"); reflexivity.
  - apply (H2 "database"); reflexivity.
  - apply (H1 "logging.conf"); reflexivity.
  - apply (H1 "../generated"); reflexivity.
  - apply (H1 "../../html/generated"); reflexivity.
Qed.
